(** * database.py: the persistence layer of the OSINT bot

    A shallow embedding of [src/database.py].  Every function of the module
    opens a connection, executes parameterised SQL statements and commits.
    The embedding keeps that shape:

    - a database state [DB] holds the five tables of [init_db];
    - a connection is a small state-and-error monad [conn] over a [session]
      (the durable state and the connection's uncommitted working copy);
    - [execute] performs the driver's binding checks before it runs the
      statement: the number of [?] placeholders of the SQL text against the
      number of supplied values, and every bound integer against the 64-bit
      range of an SQLite INTEGER;
    - [connect] is the [async with aiosqlite.connect(DB_PATH) as db] block:
      what was not committed when the block is left is discarded.

    Integer columns are [Z], text columns [string], nullable text columns
    [option string].  The clock readings a call makes are explicit inputs. *)

From Stdlib Require Import ZArith Ascii Lia.
From stdpp Require Import gmap strings list fin_maps sorting pretty.

Local Open Scope Z_scope.

(** ** Driver errors and outcomes *)

(** The exceptions that the functions of this module can raise. *)
Inductive db_error : Type :=
| IntegrityError     (* a PRIMARY KEY / UNIQUE constraint failed *)
| ProgrammingError   (* wrong number of bindings supplied *)
| OverflowError.     (* an int too large for an SQLite INTEGER, or a date
                        out of the calendar's range *)

Inductive outcome (A : Type) : Type :=
| Done (a : A)
| Raised (e : db_error).
Global Arguments Done {A} a.
Global Arguments Raised {A} e.

(** ** Values bound to placeholders *)

Inductive sql_value : Type :=
| SqlNull
| SqlInt (z : Z)
| SqlText (s : string).

Definition sql_opt_text (o : option string) : sql_value :=
  match o with Some s => SqlText s | None => SqlNull end.

(** An SQLite INTEGER is a signed 64-bit integer; a Python int outside this
    range cannot be bound. *)
Definition int64_min : Z := -9223372036854775808.
Definition int64_max : Z := 9223372036854775807.

Definition int64 (z : Z) : Prop := int64_min ≤ z ≤ int64_max.

Global Instance int64_dec z : Decision (int64 z).
Proof. unfold int64. apply _. Defined.

Definition bindable_value (v : sql_value) : bool :=
  match v with
  | SqlInt z => bool_decide (int64 z)
  | _ => true
  end.

Definition bindable (params : list sql_value) : bool :=
  forallb bindable_value params.

(** ** Placeholders of a statement

    The tokenizer part that matters for binding: a [?] is a parameter
    unless it stands inside a quoted token ('...' or a double-quoted one). *)

Definition squote : ascii := "'"%char.
Definition dquote : ascii := "034"%char.
Definition qmark : ascii := "?"%char.

Inductive lex_state : Type :=
| InCode
| InQuoted (q : ascii).

Fixpoint count_placeholders (st : lex_state) (sql : string) : nat :=
  match sql with
  | EmptyString => 0%nat
  | String c rest =>
      match st with
      | InCode =>
          if Ascii.eqb c squote || Ascii.eqb c dquote
          then count_placeholders (InQuoted c) rest
          else if Ascii.eqb c qmark
               then S (count_placeholders InCode rest)
               else count_placeholders InCode rest
      | InQuoted q =>
          if Ascii.eqb c q
          then count_placeholders InCode rest
          else count_placeholders (InQuoted q) rest
      end
  end.

(** sqlite3_bind_parameter_count of the prepared statement. *)
Definition sql_parameter_count (sql : string) : nat :=
  count_placeholders InCode sql.

(** ** Rows and tables (the schema of [init_db]) *)

(** users(user_id PK, first_seen, last_seen, total_lookups DEFAULT 0,
          username, first_name, last_name), keyed by [user_id]. *)
Record user_row : Type := {
  first_seen : string;
  last_seen : string;
  total_lookups : Z;
  username : option string;
  first_name : option string;
  last_name : option string
}.

(** admins(user_id PK, added_by, added_on DEFAULT CURRENT_TIMESTAMP) *)
Record admin_row : Type := {
  added_by : Z;
  added_on : string
}.

(** banned(user_id PK, reason, banned_by, banned_on DEFAULT CURRENT_TIMESTAMP) *)
Record ban_row : Type := {
  reason : string;
  banned_by : Z;
  banned_on : string
}.

(** lookups(id PK AUTOINCREMENT, user_id, command, query, result,
            timestamp DEFAULT CURRENT_TIMESTAMP) *)
Record lookup_row : Type := {
  lookup_id : Z;
  user_id : Z;
  command : string;
  query : string;
  result : string;
  timestamp : string
}.

(** [users], [admins] and [banned] have an INTEGER PRIMARY KEY: the table is
    the engine's map from that key to the rest of the row.  [daily_stats]
    has the composite key (date, command) and one more column, count.
    [lookups] is the append-only log in insertion order, [lookups_seq] the
    AUTOINCREMENT high-water mark the engine keeps for it. *)
Record DB : Type := {
  users : gmap Z user_row;
  admins : gmap Z admin_row;
  banned : gmap Z ban_row;
  lookups : list lookup_row;
  lookups_seq : Z;
  daily_stats : gmap (string * string) Z
}.

Definition empty_db : DB :=
  {| users := ∅; admins := ∅; banned := ∅;
     lookups := []; lookups_seq := 0; daily_stats := ∅ |}.

(** [init_db]: five CREATE TABLE IF NOT EXISTS statements.  On a fresh file
    ([None]) every table is created empty; on an initialised database
    nothing changes. *)
Definition init_db (file : option DB) : DB :=
  match file with
  | None => empty_db
  | Some db => db
  end.

Definition set_users (m : gmap Z user_row) (db : DB) : DB :=
  {| users := m; admins := admins db; banned := banned db;
     lookups := lookups db; lookups_seq := lookups_seq db;
     daily_stats := daily_stats db |}.

Definition set_admins (m : gmap Z admin_row) (db : DB) : DB :=
  {| users := users db; admins := m; banned := banned db;
     lookups := lookups db; lookups_seq := lookups_seq db;
     daily_stats := daily_stats db |}.

Definition set_banned (m : gmap Z ban_row) (db : DB) : DB :=
  {| users := users db; admins := admins db; banned := m;
     lookups := lookups db; lookups_seq := lookups_seq db;
     daily_stats := daily_stats db |}.

Definition set_lookups (l : list lookup_row) (seq : Z) (db : DB) : DB :=
  {| users := users db; admins := admins db; banned := banned db;
     lookups := l; lookups_seq := seq;
     daily_stats := daily_stats db |}.

Definition set_daily_stats (m : gmap (string * string) Z) (db : DB) : DB :=
  {| users := users db; admins := admins db; banned := banned db;
     lookups := lookups db; lookups_seq := lookups_seq db;
     daily_stats := m |}.

(** ** The clock

    What a call reads from the outside world: [datetime.now().isoformat()],
    [datetime.now().strftime('%Y-%m-%d')] and the engine's
    CURRENT_TIMESTAMP. *)
Record clock : Type := {
  now_iso : string;
  today : string;
  current_timestamp : string
}.

(** ** Connections *)

Record session : Type := {
  durable : DB;
  working : DB
}.

Definition conn (A : Type) : Type := session → outcome A * session.

Global Instance conn_ret : MRet conn := λ A a s, (Done a, s).

Global Instance conn_bind : MBind conn := λ A B k m s,
  match m s with
  | (Done a, s') => k a s'
  | (Raised e, s') => (Raised e, s')
  end.

(** [await db.execute(sql, params)]: the driver first compares the number
    of supplied values with the statement's placeholders, then binds the
    values one by one, refusing an int outside the 64-bit range; only then
    the statement runs, against the working copy. *)
Definition execute {A} (sql : string) (params : list sql_value)
    (stmt : DB → outcome A * DB) : conn A := λ s,
  if decide (sql_parameter_count sql = length params) then
    if bindable params then
      let '(r, w) := stmt (working s) in
      (r, {| durable := durable s; working := w |})
    else (Raised OverflowError, s)
  else (Raised ProgrammingError, s).

(** A Python expression evaluated inside the connection block that either
    has a value or raises OverflowError. *)
Definition py_value {A} (v : option A) : conn A := λ s,
  match v with
  | Some a => (Done a, s)
  | None => (Raised OverflowError, s)
  end.

(** [await db.commit()] *)
Definition commit : conn unit := λ s,
  (Done (), {| durable := working s; working := working s |}).

(** [async with aiosqlite.connect(DB_PATH) as db: body] *)
Definition connect {A} (body : conn A) (db : DB) : outcome A * DB :=
  let '(r, s) := body {| durable := db; working := db |} in
  (r, durable s).

(** A SELECT: reads the working copy and changes nothing. *)
Definition select {A} (f : DB → A) (w : DB) : outcome A * DB :=
  (Done (f w), w).

(** A statement that cannot fail. *)
Definition update (f : DB → DB) (w : DB) : outcome unit * DB :=
  (Done (), f w).

(** ** The SQL texts, as they stand in the source (whitespace normalised) *)

Definition SQL_update_user : string :=
  "INSERT INTO users (user_id, first_seen, last_seen, username, first_name, last_name) VALUES (?, ?, ?, ?, ?, ?) ON CONFLICT(user_id) DO UPDATE SET last_seen=excluded.last_seen, username=excluded.username, first_name=excluded.first_name, last_name=excluded.last_name".

Definition SQL_get_user : string :=
  "SELECT * FROM users WHERE user_id = ?".

Definition SQL_is_admin : string :=
  "SELECT 1 FROM admins WHERE user_id = ?".

Definition SQL_add_admin : string :=
  "INSERT OR IGNORE INTO admins (user_id, added_by) VALUES (?, ?)".

Definition SQL_remove_admin : string :=
  "DELETE FROM admins WHERE user_id = ?".

Definition SQL_is_banned : string :=
  "SELECT 1 FROM banned WHERE user_id = ?".

Definition SQL_ban_user : string :=
  "INSERT INTO banned (user_id, reason, banned_by) VALUES (?, ?, ?)".

Definition SQL_unban_user : string :=
  "DELETE FROM banned WHERE user_id = ?".

Definition SQL_save_lookup_insert : string :=
  "INSERT INTO lookups (user_id, command, query, result) VALUES (?, ?, ?, ?)".

Definition SQL_save_lookup_user : string :=
  "UPDATE users SET total_lookups = total_lookups + 1 WHERE user_id = ?".

Definition SQL_save_lookup_daily : string :=
  "INSERT INTO daily_stats (date, command, count) VALUES (?, ?, 1) ON CONFLICT(date, command) DO UPDATE SET count = count + 1".

Definition SQL_get_leaderboard : string :=
  "SELECT user_id, total_lookups FROM users ORDER BY total_lookups DESC LIMIT ?".

Definition SQL_count_users : string := "SELECT COUNT(*) FROM users".
Definition SQL_sum_lookups : string := "SELECT SUM(total_lookups) FROM users".
Definition SQL_count_admins : string := "SELECT COUNT(*) FROM admins".
Definition SQL_count_banned : string := "SELECT COUNT(*) FROM banned".

(** The statement of [get_daily_stats]; its two double-quoted tokens are
    spelled with [dquote]:
    SELECT date, command, count FROM daily_stats
    WHERE date >= date(<dq>now<dq>, <dq>-? days<dq>) ORDER BY date DESC *)
Definition SQL_get_daily_stats : string :=
  "SELECT date, command, count FROM daily_stats WHERE date >= date("
  +:+ String dquote "now" +:+ String dquote ", "
  +:+ String dquote "-? days" +:+ String dquote ") ORDER BY date DESC".

(** ** The statements *)

(** INSERT INTO users ... ON CONFLICT(user_id) DO UPDATE SET last_seen,
    username, first_name, last_name.  A new row takes total_lookups from the
    column default 0. *)
Definition upsert_user (now : string) (uid : Z)
    (uname fname lname : option string) (w : DB) : DB :=
  match users w !! uid with
  | None =>
      set_users (<[uid := {| first_seen := now; last_seen := now;
                             total_lookups := 0; username := uname;
                             first_name := fname; last_name := lname |}]>
                   (users w)) w
  | Some r =>
      set_users (<[uid := {| first_seen := first_seen r; last_seen := now;
                             total_lookups := total_lookups r;
                             username := uname; first_name := fname;
                             last_name := lname |}]> (users w)) w
  end.

(** INSERT OR IGNORE INTO admins: a conflicting row is skipped silently. *)
Definition insert_or_ignore_admin (ts : string) (uid by_ : Z) (w : DB) : DB :=
  match admins w !! uid with
  | Some _ => w
  | None =>
      set_admins (<[uid := {| added_by := by_; added_on := ts |}]> (admins w)) w
  end.

Definition delete_admin (uid : Z) (w : DB) : DB :=
  set_admins (delete uid (admins w)) w.

(** INSERT INTO banned: a plain insert, the primary key is enforced. *)
Definition insert_banned (ts : string) (uid : Z) (why : string) (by_ : Z)
    (w : DB) : outcome unit * DB :=
  match banned w !! uid with
  | Some _ => (Raised IntegrityError, w)
  | None =>
      (Done (),
       set_banned (<[uid := {| reason := why; banned_by := by_;
                               banned_on := ts |}]> (banned w)) w)
  end.

Definition delete_banned (uid : Z) (w : DB) : DB :=
  set_banned (delete uid (banned w)) w.

Definition max_lookup_id (l : list lookup_row) : Z :=
  foldr (λ r m, Z.max (lookup_id r) m) 0 l.

(** AUTOINCREMENT: one more than the largest id ever used. *)
Definition next_lookup_id (w : DB) : Z :=
  Z.max (lookups_seq w) (max_lookup_id (lookups w)) + 1.

Definition insert_lookup (ts : string) (uid : Z) (cmd q res : string)
    (w : DB) : DB :=
  let i := next_lookup_id w in
  set_lookups (lookups w ++ [{| lookup_id := i; user_id := uid;
                                command := cmd; query := q; result := res;
                                timestamp := ts |}]) i w.

Definition bump (r : user_row) : user_row :=
  {| first_seen := first_seen r; last_seen := last_seen r;
     total_lookups := total_lookups r + 1; username := username r;
     first_name := first_name r; last_name := last_name r |}.

(** UPDATE users SET total_lookups = total_lookups + 1 WHERE user_id = ? *)
Definition bump_total_lookups (uid : Z) (w : DB) : DB :=
  set_users (alter bump uid (users w)) w.

(** INSERT INTO daily_stats ... VALUES (?, ?, 1)
    ON CONFLICT(date, command) DO UPDATE SET count = count + 1 *)
Definition upsert_daily_stats (date cmd : string) (w : DB) : DB :=
  match daily_stats w !! (date, cmd) with
  | None => set_daily_stats (<[(date, cmd) := 1]> (daily_stats w)) w
  | Some n => set_daily_stats (<[(date, cmd) := n + 1]> (daily_stats w)) w
  end.

(** SUM over a column: NULL when there is no row. *)
Definition sql_sum (col : list Z) : option Z :=
  match col with
  | [] => None
  | _ => Some (foldr Z.add 0 col)
  end.

(** Python's [x or 0] for [x] an int or None. *)
Definition or_zero (x : option Z) : Z :=
  match x with
  | None => 0
  | Some z => if decide (z = 0) then 0 else z
  end.

(** LIMIT n: a negative n puts no upper bound on the rows. *)
Definition sql_limit {A} (n : Z) (rows : list A) : list A :=
  if decide (n < 0) then rows else take (Z.to_nat n) rows.

(** ** The functions of the module *)

Definition update_user (t : clock) (uid : Z)
    (uname fname lname : option string) : DB → outcome unit * DB :=
  connect (
    execute SQL_update_user
      [SqlInt uid; SqlText (now_iso t); SqlText (now_iso t);
       sql_opt_text uname; sql_opt_text fname; sql_opt_text lname]
      (update (upsert_user (now_iso t) uid uname fname lname)) ;;
    commit).

Definition get_user (uid : Z) : DB → outcome (option (Z * user_row)) * DB :=
  connect (
    execute SQL_get_user [SqlInt uid]
      (select (λ w, (λ r, (uid, r)) <$> users w !! uid))).

Definition is_admin (uid : Z) : DB → outcome bool * DB :=
  connect (
    execute SQL_is_admin [SqlInt uid]
      (select (λ w, bool_decide (is_Some (admins w !! uid))))).

Definition add_admin (t : clock) (uid by_ : Z) : DB → outcome unit * DB :=
  connect (
    execute SQL_add_admin [SqlInt uid; SqlInt by_]
      (update (insert_or_ignore_admin (current_timestamp t) uid by_)) ;;
    commit).

Definition remove_admin (uid : Z) : DB → outcome unit * DB :=
  connect (
    execute SQL_remove_admin [SqlInt uid] (update (delete_admin uid)) ;;
    commit).

Definition is_banned (uid : Z) : DB → outcome bool * DB :=
  connect (
    execute SQL_is_banned [SqlInt uid]
      (select (λ w, bool_decide (is_Some (banned w !! uid))))).

Definition ban_user (t : clock) (uid : Z) (why : string) (by_ : Z)
    : DB → outcome unit * DB :=
  connect (
    execute SQL_ban_user [SqlInt uid; SqlText why; SqlInt by_]
      (insert_banned (current_timestamp t) uid why by_) ;;
    commit).

Definition unban_user (uid : Z) : DB → outcome unit * DB :=
  connect (
    execute SQL_unban_user [SqlInt uid] (update (delete_banned uid)) ;;
    commit).

(** The dict returned by [get_stats]. *)
Module Stats.
Record t : Type := {
  total_users : Z;
  total_lookups : Z;
  total_admins : Z;
  total_banned : Z
}.
End Stats.

Definition get_stats : DB → outcome Stats.t * DB :=
  connect (
    n_users ← execute SQL_count_users []
      (select (λ w, Z.of_nat (size (users w))));
    sum_lookups ← execute SQL_sum_lookups []
      (select (λ w, sql_sum (total_lookups <$> (map_to_list (users w)).*2)));
    n_admins ← execute SQL_count_admins []
      (select (λ w, Z.of_nat (size (admins w))));
    n_banned ← execute SQL_count_banned []
      (select (λ w, Z.of_nat (size (banned w))));
    mret {| Stats.total_users := n_users;
            Stats.total_lookups := or_zero sum_lookups;
            Stats.total_admins := n_admins;
            Stats.total_banned := n_banned |}).

(** [get_daily_stats]: one value is bound to a statement whose only [?]
    stands inside the quoted token [-? days].  Behind the binding check the
    statement could select nothing: that text is no date modifier, the date
    function gives NULL for it, and no row passes a comparison with NULL. *)
Definition get_daily_stats (days : Z)
    : DB → outcome (list (string * string * Z)) * DB :=
  connect (
    execute SQL_get_daily_stats [SqlInt days] (select (λ _, []))).

(** ** ORDER BY with a LIMIT

    The engine sorts the rows the scan delivers and keeps rows with equal
    sort keys in the order of the scan: an insertion sort in which a row
    goes behind the rows that are strictly before it and in front of all
    others. *)
Section StableSort.

Context {A : Type} (before : A → A → bool).

Fixpoint insert_sorted (x : A) (l : list A) : list A :=
  match l with
  | [] => [x]
  | y :: l' => if before y x then y :: insert_sorted x l' else x :: y :: l'
  end.

Definition stable_sort (l : list A) : list A := foldr insert_sorted [] l.

End StableSort.

(** The scan of [users]: by ascending user_id, the key order in which the
    table stores its rows. *)
Definition key_le (a b : Z * user_row) : Prop := (a.1 ≤ b.1)%Z.

Global Instance key_le_dec a b : Decision (key_le a b).
Proof. unfold key_le. apply _. Defined.

Definition key_before (a b : Z * user_row) : bool := bool_decide (a.1 < b.1)%Z.

Definition scan_ascending (m : gmap Z user_row) : list (Z * user_row) :=
  stable_sort key_before (map_to_list m).

(** ORDER BY total_lookups DESC: a pair with more lookups goes first. *)
Definition more_lookups (a b : Z * Z) : bool := bool_decide (b.2 < a.2)%Z.

Definition leaderboard_rows (w : DB) : list (Z * Z) :=
  (λ p, (p.1, total_lookups p.2)) <$> scan_ascending (users w).

Definition select_leaderboard (limit : Z) (w : DB) : list (Z * Z) :=
  sql_limit limit (stable_sort more_lookups (leaderboard_rows w)).

Definition get_leaderboard (limit : Z) : DB → outcome (list (Z * Z)) * DB :=
  connect (
    execute SQL_get_leaderboard [SqlInt limit]
      (select (select_leaderboard limit))).

(** The order of the leaderboard: more lookups first, and among equal
    totals the smaller user_id first. *)
Definition leaderboard_order (a b : Z * Z) : Prop :=
  (b.2 < a.2 ∨ (b.2 = a.2 ∧ a.1 ≤ b.1))%Z.

Section Lookups.

(** The payload of a lookup and [json.dumps] on it. *)
Context {Value : Type} (json_dumps : Value → string).

Definition save_lookup (t : clock) (uid : Z) (cmd q : string) (res : Value)
    : DB → outcome unit * DB :=
  connect (
    execute SQL_save_lookup_insert
      [SqlInt uid; SqlText cmd; SqlText q; SqlText (json_dumps res)]
      (update (insert_lookup (current_timestamp t) uid cmd q (json_dumps res))) ;;
    execute SQL_save_lookup_user [SqlInt uid]
      (update (bump_total_lookups uid)) ;;
    execute SQL_save_lookup_daily [SqlText (today t); SqlText cmd]
      (update (upsert_daily_stats (today t) cmd)) ;;
    commit).

(** ** Call sequences *)

(** One call of a function of the module.  [call_select] stands for the
    functions that only run a SELECT and are not spelled out above
    (get_all_users, get_recent_users, get_inactive_users, get_all_admins,
    get_user_lookups, get_lookup_stats). *)
Inductive call : Type :=
| call_init_db
| call_update_user (t : clock) (uid : Z) (uname fname lname : option string)
| call_get_user (uid : Z)
| call_is_admin (uid : Z)
| call_add_admin (t : clock) (uid by_ : Z)
| call_remove_admin (uid : Z)
| call_is_banned (uid : Z)
| call_ban_user (t : clock) (uid : Z) (why : string) (by_ : Z)
| call_unban_user (uid : Z)
| call_save_lookup (t : clock) (uid : Z) (cmd q : string) (res : Value)
| call_get_leaderboard (limit : Z)
| call_get_stats
| call_get_daily_stats (days : Z)
| call_select.

(** The database a call leaves behind, whether it returned or raised. *)
Definition perform (c : call) (db : DB) : DB :=
  match c with
  | call_init_db => init_db (Some db)
  | call_update_user t uid uname fname lname =>
      (update_user t uid uname fname lname db).2
  | call_get_user uid => (get_user uid db).2
  | call_is_admin uid => (is_admin uid db).2
  | call_add_admin t uid by_ => (add_admin t uid by_ db).2
  | call_remove_admin uid => (remove_admin uid db).2
  | call_is_banned uid => (is_banned uid db).2
  | call_ban_user t uid why by_ => (ban_user t uid why by_ db).2
  | call_unban_user uid => (unban_user uid db).2
  | call_save_lookup t uid cmd q res => (save_lookup t uid cmd q res db).2
  | call_get_leaderboard limit => (get_leaderboard limit db).2
  | call_get_stats => (get_stats db).2
  | call_get_daily_stats days => (get_daily_stats days db).2
  | call_select => db
  end.

Definition run (cs : list call) (db : DB) : DB :=
  foldl (λ d c, perform c d) db cs.

(** Every [save_lookup] of the sequence is for a user_id that an earlier
    [update_user] of the sequence (or a member of [seen]) was for. *)
Fixpoint upserted_before_lookup (seen : gset Z) (cs : list call) : bool :=
  match cs with
  | [] => true
  | call_update_user _ uid _ _ _ :: cs' =>
      upserted_before_lookup ({[uid]} ∪ seen) cs'
  | call_save_lookup _ uid _ _ _ :: cs' =>
      bool_decide (uid ∈ seen) && upserted_before_lookup seen cs'
  | _ :: cs' => upserted_before_lookup seen cs'
  end.

End Lookups.

(** The number of rows of [lookups] with a given user_id. *)
Definition lookups_of (uid : Z) (l : list lookup_row) : nat :=
  length (filter (λ r, user_id r = uid) l).

(** [json.dumps] on a Python int: its decimal numeral. *)
Definition json_dumps_int (z : Z) : string := pretty z.

(** The rows of a keyed table that carry a given key. *)
Definition rows_with_key {V} (k : Z) (m : gmap Z V) : list (Z * V) :=
  filter (λ p, p.1 = k) (map_to_list m).



(** A clock reading used in the worked examples. *)
Definition noon : clock :=
  {| now_iso := "2024-05-01T12:00:00.000123";
     today := "2024-05-01";
     current_timestamp := "2024-05-01 10:00:00" |}.

Definition evening : clock :=
  {| now_iso := "2024-05-01T19:30:00.004567";
     today := "2024-05-01";
     current_timestamp := "2024-05-01 17:30:00" |}.

(** The fresh database after user 5 was banned. *)
Definition one_banned : DB := (ban_user noon 5 "spam" 1 empty_db).2.

(** Two users who have made no lookup yet. *)
Definition two_users : DB :=
  (update_user noon 2 (Some "bob") None None
     (update_user noon 1 (Some "ann") None None empty_db).2).2.

(** Three users who have made no lookup yet. *)
Definition three_users : DB :=
  (update_user noon 3 (Some "cy") None None two_users).2.

(** A session of the bot: a user is registered, looks two things up, is
    made admin, is banned twice (the second call raises), and the daily
    statistics are asked for (which raises as well). *)
Definition session_calls : list (@call Z) :=
  [ call_init_db;
    call_update_user noon 7 (Some "ann") (Some "Ann") None;
    call_save_lookup noon 7 "phone" "5551234" 42;
    call_add_admin noon 7 1;
    call_ban_user noon 7 "spam" 1;
    call_ban_user evening 7 "flood" 1;
    call_get_daily_stats 7;
    call_save_lookup evening 7 "ip" "10.0.0.1" (-3);
    call_update_user evening 7 None None None;
    call_get_stats ].

(** The same lookups recorded before the user is registered. *)
Definition unregistered_calls : list (@call Z) :=
  [ call_save_lookup noon 7 "phone" "5551234" 42;
    call_update_user noon 7 (Some "ann") (Some "Ann") None ].

(** ** The remaining queries *)

Definition SQL_get_all_users : string :=
  "SELECT user_id, username, first_name, total_lookups, last_seen FROM users ORDER BY last_seen DESC LIMIT ? OFFSET ?".

Definition SQL_get_recent_users : string :=
  "SELECT user_id, username, last_seen FROM users WHERE last_seen >= ?".

Definition SQL_get_inactive_users : string :=
  "SELECT user_id, username, last_seen FROM users WHERE last_seen < ?".

Definition SQL_get_all_admins : string := "SELECT user_id FROM admins".

Definition SQL_get_user_lookups : string :=
  "SELECT command, query, timestamp FROM lookups WHERE user_id = ? ORDER BY timestamp DESC LIMIT ?".

Definition SQL_get_lookup_stats : string :=
  "SELECT command, COUNT(*) as cnt FROM lookups GROUP BY command ORDER BY cnt DESC LIMIT ?".

(** OFFSET n: the first n rows are skipped; a negative n skips none. *)
Definition sql_offset {A} (n : Z) (rows : list A) : list A :=
  drop (Z.to_nat n) rows.

(** The date-times the module stores are ISO texts; the engine compares
    them as texts, byte by byte ([String.le], [String.ltb]). *)
Definition text_ge (a b : string) : Prop := String.le b a.
Definition text_lt (a b : string) : Prop := String.ltb a b.

Global Instance text_ge_dec a b : Decision (text_ge a b).
Proof. unfold text_ge. apply _. Defined.

Global Instance text_lt_dec a b : Decision (text_lt a b).
Proof. unfold text_lt. apply _. Defined.

(** ORDER BY last_seen DESC on user rows: the row seen later goes first. *)
Definition seen_later (a b : Z * user_row) : bool :=
  String.ltb (last_seen b.2) (last_seen a.2).

Definition last_seen_desc (a b : Z * user_row) : Prop :=
  text_ge (last_seen a.2) (last_seen b.2).

Global Instance last_seen_desc_dec a b : Decision (last_seen_desc a b).
Proof. unfold last_seen_desc. apply _. Defined.

(** ORDER BY timestamp DESC on lookup rows: the later row goes first. *)
Definition stamped_later (a b : lookup_row) : bool :=
  String.ltb (timestamp b) (timestamp a).

Definition timestamp_desc (a b : lookup_row) : Prop :=
  text_ge (timestamp a) (timestamp b).

Global Instance timestamp_desc_dec a b : Decision (timestamp_desc a b).
Proof. unfold timestamp_desc. apply _. Defined.

(** ORDER BY cnt DESC on (command, cnt) pairs: the larger count goes
    first. *)
Definition more_often (a b : string * Z) : bool := bool_decide (b.2 < a.2)%Z.

Definition cnt_desc (a b : string * Z) : Prop := (b.2 ≤ a.2)%Z.

Global Instance cnt_desc_dec a b : Decision (cnt_desc a b).
Proof. unfold cnt_desc. apply _. Defined.

(** COUNT of the [lookups] rows of one command. *)
Definition command_count (cmd : string) (l : list lookup_row) : Z :=
  Z.of_nat (length (filter (λ r, command r = cmd) l)).

(** GROUP BY command with COUNT: one pair per command that occurs. *)
Definition group_by_command (l : list lookup_row) : list (string * Z) :=
  (λ c, (c, command_count c l)) <$> remove_dups (command <$> l).

(** What [get_recent_users] and [get_inactive_users] read off the calendar:
    [(datetime.now() - timedelta(days=days)).isoformat()], or [None] where
    the subtraction raises OverflowError (a number of days that timedelta
    refuses, or a date outside the years 1 to 9999). *)
Record calendar : Type := {
  days_ago_iso : Z → option string
}.

(** ** A calendar for the worked examples

    Dates as day numbers (days since 1970-01-01 in the proleptic Gregorian
    calendar), the way [datetime] computes with them. *)
Definition days_from_civil (y m d : Z) : Z :=
  let y' := if decide (m ≤ 2) then y - 1 else y in
  let era := y' `div` 400 in
  let yoe := y' - era * 400 in
  let mp := if decide (m ≤ 2) then m + 9 else m - 3 in
  let doy := (153 * mp + 2) `div` 5 + d - 1 in
  let doe := yoe * 365 + yoe `div` 4 - yoe `div` 100 + doy in
  era * 146097 + doe - 719468.

Definition civil_from_days (n : Z) : Z * Z * Z :=
  let z := n + 719468 in
  let era := z `div` 146097 in
  let doe := z - era * 146097 in
  let yoe := (doe - doe `div` 1460 + doe `div` 36524 - doe `div` 146096)
             `div` 365 in
  let doy := doe - (365 * yoe + yoe `div` 4 - yoe `div` 100) in
  let mp := (5 * doy + 2) `div` 153 in
  let d := doy - (153 * mp + 2) `div` 5 + 1 in
  let m := if decide (mp < 10) then mp + 3 else mp - 9 in
  let y := yoe + era * 400 in
  (if decide (m ≤ 2) then y + 1 else y, m, d).

(** Decimal numeral of a number below 100 in two digits, and of a year in
    four. *)
Definition two_digits (n : Z) : string :=
  if decide (n < 10) then "0" +:+ pretty n else pretty n.

Definition four_digits (n : Z) : string :=
  (if decide (n < 10) then "000"
   else if decide (n < 100) then "00"
   else if decide (n < 1000) then "0" else "") +:+ pretty n.

(** The calendar of a clock standing at the date [y]-[m]-[d] and the time of
    day [time]: timedelta takes at most 999999999 days, and a datetime lies
    between the years 1 and 9999. *)
Definition calendar_at (y m d : Z) (time : string) : calendar :=
  {| days_ago_iso := λ days,
       if decide (-999999999 ≤ days ≤ 999999999) then
         let n := days_from_civil y m d - days in
         if decide (days_from_civil 1 1 1 ≤ n ≤ days_from_civil 9999 12 31)
         then
           let '(y', m', d') := civil_from_days n in
           Some (four_digits y' +:+ "-" +:+ two_digits m' +:+ "-"
                 +:+ two_digits d' +:+ "T" +:+ time)
         else None
       else None |}.

Section Queries.

(** The orders in which the engine delivers the rows of the three tables
    the remaining queries read.  The engine scans a table by its key
    ([scan_ascending] for [users], [scan_log] for the log); what is proved
    of these queries below does not depend on that order and is stated for
    every scan. *)
Variable scan_users : gmap Z user_row → list (Z * user_row).
Variable scan_admins : gmap Z admin_row → list (Z * admin_row).
Variable scan_lookups : list lookup_row → list lookup_row.

Definition select_all_users (limit offset : Z) (w : DB)
    : list (Z * option string * option string * Z * string) :=
  (λ p, (p.1, username p.2, first_name p.2, total_lookups p.2, last_seen p.2))
  <$> sql_limit limit
        (sql_offset offset (stable_sort seen_later (scan_users (users w)))).

Definition get_all_users (limit offset : Z)
    : DB → outcome (list (Z * option string * option string * Z * string)) * DB :=
  connect (
    execute SQL_get_all_users [SqlInt limit; SqlInt offset]
      (select (select_all_users limit offset))).

Definition select_recent_users (cutoff : string) (w : DB)
    : list (Z * option string * string) :=
  (λ p, (p.1, username p.2, last_seen p.2))
  <$> filter (λ p, text_ge (last_seen p.2) cutoff) (scan_users (users w)).

Definition get_recent_users (cal : calendar) (days : Z)
    : DB → outcome (list (Z * option string * string)) * DB :=
  connect (
    cutoff ← py_value (days_ago_iso cal days);
    execute SQL_get_recent_users [SqlText cutoff]
      (select (select_recent_users cutoff))).

Definition select_inactive_users (cutoff : string) (w : DB)
    : list (Z * option string * string) :=
  (λ p, (p.1, username p.2, last_seen p.2))
  <$> filter (λ p, text_lt (last_seen p.2) cutoff) (scan_users (users w)).

Definition get_inactive_users (cal : calendar) (days : Z)
    : DB → outcome (list (Z * option string * string)) * DB :=
  connect (
    cutoff ← py_value (days_ago_iso cal days);
    execute SQL_get_inactive_users [SqlText cutoff]
      (select (select_inactive_users cutoff))).

(** [return [row[0] for row in rows]] *)
Definition get_all_admins : DB → outcome (list Z) * DB :=
  connect (
    execute SQL_get_all_admins []
      (select (λ w, (scan_admins (admins w)).*1))).

Definition select_user_lookups (uid limit : Z) (w : DB)
    : list (string * string * string) :=
  (λ r, (command r, query r, timestamp r))
  <$> sql_limit limit
        (stable_sort stamped_later
           (filter (λ r, user_id r = uid) (scan_lookups (lookups w)))).

Definition get_user_lookups (uid limit : Z)
    : DB → outcome (list (string * string * string)) * DB :=
  connect (
    execute SQL_get_user_lookups [SqlInt uid; SqlInt limit]
      (select (select_user_lookups uid limit))).

Definition select_lookup_stats (limit : Z) (w : DB) : list (string * Z) :=
  sql_limit limit
    (stable_sort more_often (group_by_command (scan_lookups (lookups w)))).

Definition get_lookup_stats (limit : Z)
    : DB → outcome (list (string * Z)) * DB :=
  connect (
    execute SQL_get_lookup_stats [SqlInt limit]
      (select (select_lookup_stats limit))).

End Queries.

(** Sum of a column of integers. *)
Definition sumZ (l : list Z) : Z := foldr Z.add 0 l.

(** The [daily_stats] counters of one command, summed over the dates. *)
Definition daily_total (cmd : string) (m : gmap (string * string) Z) : Z :=
  sumZ ((λ kv, if decide (kv.1.2 = cmd) then kv.2 else 0) <$> map_to_list m).

(** The calendar on the afternoon of 2024-05-08. *)
Definition afternoon : calendar := calendar_at 2024 5 8 "15:00:00".

(** A user first seen at noon and one first seen in the evening. *)
Definition noon_and_evening : DB :=
  (update_user evening 2 (Some "bob") None None
     (update_user noon 1 (Some "ann") None None empty_db).2).2.

(** Four lookups: three of one command and one of another. *)
Definition lookup_calls : list (@call Z) :=
  [ call_update_user noon 7 (Some "ann") None None;
    call_save_lookup noon 7 "phone" "5551234" 1;
    call_save_lookup noon 7 "ip" "10.0.0.1" 2;
    call_save_lookup evening 7 "phone" "5559876" 3;
    call_save_lookup evening 8 "phone" "5550000" 4 ].


(** What a call writes to the log: nothing, unless it is a [save_lookup]
    for a user_id that can be bound. *)
Definition logged {Value} (json_dumps : Value → string) (c : @call Value)
    : option (Z * string * string * string) :=
  match c with
  | call_save_lookup _ uid cmd q res =>
      if decide (int64 uid) then Some (uid, cmd, q, json_dumps res) else None
  | _ => None
  end.

(** A database the engine can hold: the integers that calls bound into its
    rows (the user_id keys, added_by, banned_by and the user_id of a logged
    lookup) are 64-bit integers. *)
Definition valid_db (db : DB) : Prop :=
  map_Forall (λ uid _, int64 uid) (users db) ∧
  map_Forall (λ uid r, int64 uid ∧ int64 (added_by r)) (admins db) ∧
  map_Forall (λ uid r, int64 uid ∧ int64 (banned_by r)) (banned db) ∧
  Forall (λ r, int64 (user_id r)) (lookups db).

Global Instance valid_db_dec db : Decision (valid_db db).
Proof. unfold valid_db. apply _. Defined.

(** The first integer past the 64-bit range, 2^63. *)
Definition too_big : Z := 9223372036854775808.

(** The ids of the log run 1, 2, 3, ... in log order, and the AUTOINCREMENT
    mark stands at the last of them. *)
Definition ids_in_order (db : DB) : Prop :=
  lookups_seq db = Z.of_nat (length (lookups db)) ∧
  ∀ (i : nat) r, lookups db !! i = Some r → lookup_id r = Z.of_nat i + 1.

(** For every command, the [daily_stats] counters of the command add up to
    the number of logged lookups of the command. *)
Definition daily_counted (db : DB) : Prop :=
  ∀ cmd, daily_total cmd (daily_stats db) = command_count cmd (lookups db).


(** The scan of the log by rowid: the order the rows were written in. *)
Definition scan_log (l : list lookup_row) : list lookup_row := l.

(** The scan of [admins] in the order the table's map yields its rows. *)
Definition scan_admins_stored (m : gmap Z admin_row) : list (Z * admin_row) :=
  map_to_list m.

(** Users 1 and 2, the first of them an admin. *)
Definition one_admin : DB := (add_admin noon 1 1 two_users).2.

(** * Properties *)

(** ** What each function computes

    The count check passes for every statement but the one of
    [get_daily_stats]; behind it, and behind the binding of the integers,
    each function is its statements in sequence. *)

Lemma sql_parameter_counts :
  sql_parameter_count SQL_update_user = 6%nat ∧
  sql_parameter_count SQL_add_admin = 2%nat ∧
  sql_parameter_count SQL_ban_user = 3%nat ∧
  sql_parameter_count SQL_save_lookup_insert = 4%nat ∧
  sql_parameter_count SQL_save_lookup_user = 1%nat ∧
  sql_parameter_count SQL_save_lookup_daily = 2%nat ∧
  sql_parameter_count SQL_get_leaderboard = 1%nat ∧
  sql_parameter_count SQL_get_daily_stats = 0%nat.
Proof. repeat split; vm_compute; reflexivity. Qed.

Lemma int64_too_big : ¬ int64 too_big.
Proof. unfold int64, int64_min, int64_max, too_big. lia. Qed.

Lemma bound uid : int64 uid → bool_decide (int64 uid) = true.
Proof. apply bool_decide_eq_true_2. Qed.

Lemma unbound uid : ¬ int64 uid → bool_decide (int64 uid) = false.
Proof. apply bool_decide_eq_false_2. Qed.

(** A block of one writing statement and a commit. *)
Lemma connect_write sql params (f : DB → DB) db :
  sql_parameter_count sql = length params →
  connect (execute sql params (update f) ;; commit) db
  = if bindable params then (Done (), f db) else (Raised OverflowError, db).
Proof.
  intros Hcount. unfold connect, mbind, conn_bind, execute. simpl.
  rewrite decide_True by done. by destruct (bindable params).
Qed.

(** A block of one SELECT. *)
Lemma connect_read {A} sql params (f : DB → A) db :
  sql_parameter_count sql = length params →
  connect (execute sql params (select f)) db
  = if bindable params then (Done (f db), db) else (Raised OverflowError, db).
Proof.
  intros Hcount. unfold connect, execute. simpl.
  rewrite decide_True by done. by destruct (bindable params).
Qed.

Lemma bindable_opt_text o : bindable_value (sql_opt_text o) = true.
Proof. by destruct o. Qed.

Lemma update_user_eq t uid uname fname lname db :
  update_user t uid uname fname lname db
  = if bool_decide (int64 uid)
    then (Done (), upsert_user (now_iso t) uid uname fname lname db)
    else (Raised OverflowError, db).
Proof.
  unfold update_user. rewrite connect_write by reflexivity.
  unfold bindable. simpl. rewrite !bindable_opt_text.
  by destruct (bool_decide (int64 uid)).
Qed.

Lemma add_admin_eq t uid by_ db :
  add_admin t uid by_ db
  = if bool_decide (int64 uid) && bool_decide (int64 by_)
    then (Done (), insert_or_ignore_admin (current_timestamp t) uid by_ db)
    else (Raised OverflowError, db).
Proof.
  unfold add_admin. rewrite connect_write by reflexivity.
  unfold bindable. simpl.
  by destruct (bool_decide (int64 uid)), (bool_decide (int64 by_)).
Qed.

Lemma remove_admin_eq uid db :
  remove_admin uid db
  = if bool_decide (int64 uid) then (Done (), delete_admin uid db)
    else (Raised OverflowError, db).
Proof.
  unfold remove_admin. rewrite connect_write by reflexivity.
  unfold bindable. simpl. by destruct (bool_decide (int64 uid)).
Qed.

Lemma ban_user_eq t uid why by_ db :
  ban_user t uid why by_ db
  = if bool_decide (int64 uid) && bool_decide (int64 by_)
    then insert_banned (current_timestamp t) uid why by_ db
    else (Raised OverflowError, db).
Proof.
  unfold ban_user, connect, mbind, conn_bind, execute, bindable. simpl.
  destruct (bool_decide (int64 uid)), (bool_decide (int64 by_)); simpl;
    try reflexivity.
  unfold insert_banned. destruct (banned db !! uid); reflexivity.
Qed.

Lemma unban_user_eq uid db :
  unban_user uid db
  = if bool_decide (int64 uid) then (Done (), delete_banned uid db)
    else (Raised OverflowError, db).
Proof.
  unfold unban_user. rewrite connect_write by reflexivity.
  unfold bindable. simpl. by destruct (bool_decide (int64 uid)).
Qed.

Lemma save_lookup_eq {Value} (json_dumps : Value → string) t uid cmd q res db :
  save_lookup json_dumps t uid cmd q res db
  = if bool_decide (int64 uid)
    then (Done (),
          upsert_daily_stats (today t) cmd
            (bump_total_lookups uid
               (insert_lookup (current_timestamp t) uid cmd q
                  (json_dumps res) db)))
    else (Raised OverflowError, db).
Proof.
  unfold save_lookup, connect, mbind, conn_bind, execute, bindable. simpl.
  by destruct (bool_decide (int64 uid)).
Qed.

Lemma get_user_eq uid db :
  get_user uid db
  = if bool_decide (int64 uid)
    then (Done ((λ r, (uid, r)) <$> users db !! uid), db)
    else (Raised OverflowError, db).
Proof.
  unfold get_user. rewrite connect_read by reflexivity.
  unfold bindable. simpl. by destruct (bool_decide (int64 uid)).
Qed.

Lemma is_admin_eq uid db :
  is_admin uid db
  = if bool_decide (int64 uid)
    then (Done (bool_decide (is_Some (admins db !! uid))), db)
    else (Raised OverflowError, db).
Proof.
  unfold is_admin. rewrite connect_read by reflexivity.
  unfold bindable. simpl. by destruct (bool_decide (int64 uid)).
Qed.

Lemma is_banned_eq uid db :
  is_banned uid db
  = if bool_decide (int64 uid)
    then (Done (bool_decide (is_Some (banned db !! uid))), db)
    else (Raised OverflowError, db).
Proof.
  unfold is_banned. rewrite connect_read by reflexivity.
  unfold bindable. simpl. by destruct (bool_decide (int64 uid)).
Qed.

Lemma get_leaderboard_eq limit db :
  get_leaderboard limit db
  = if bool_decide (int64 limit)
    then (Done (select_leaderboard limit db), db)
    else (Raised OverflowError, db).
Proof.
  unfold get_leaderboard. rewrite connect_read by reflexivity.
  unfold bindable. simpl. by destruct (bool_decide (int64 limit)).
Qed.

Lemma get_stats_eq db :
  get_stats db
  = (Done {| Stats.total_users := Z.of_nat (size (users db));
             Stats.total_lookups :=
               or_zero (sql_sum (total_lookups <$> (map_to_list (users db)).*2));
             Stats.total_admins := Z.of_nat (size (admins db));
             Stats.total_banned := Z.of_nat (size (banned db)) |}, db).
Proof. reflexivity. Qed.

(** ** Databases the engine can hold *)

Lemma valid_db_empty : valid_db empty_db.
Proof.
  unfold valid_db. split_and!; try apply map_Forall_empty. constructor.
Qed.

Lemma valid_db_upsert_user now uid uname fname lname db :
  int64 uid → valid_db db → valid_db (upsert_user now uid uname fname lname db).
Proof.
  intros Hu (Husers & Hadmins & Hbanned & Hlog). unfold upsert_user, valid_db.
  destruct (users db !! uid); split_and!; simpl; try done;
    by apply map_Forall_insert_2.
Qed.

Lemma valid_db_insert_admin ts uid by_ db :
  int64 uid → int64 by_ → valid_db db →
  valid_db (insert_or_ignore_admin ts uid by_ db).
Proof.
  intros Hu Hb (Husers & Hadmins & Hbanned & Hlog).
  unfold insert_or_ignore_admin, valid_db.
  destruct (admins db !! uid); split_and!; simpl; try done.
  by apply map_Forall_insert_2.
Qed.

Lemma valid_db_delete_admin uid db :
  valid_db db → valid_db (delete_admin uid db).
Proof.
  intros (Husers & Hadmins & Hbanned & Hlog). unfold valid_db.
  split_and!; simpl; try done. by apply map_Forall_delete.
Qed.

Lemma valid_db_insert_banned ts uid why by_ db :
  int64 uid → int64 by_ → valid_db db →
  valid_db (insert_banned ts uid why by_ db).2.
Proof.
  intros Hu Hb (Husers & Hadmins & Hbanned & Hlog).
  unfold insert_banned, valid_db.
  destruct (banned db !! uid); split_and!; simpl; try done.
  by apply map_Forall_insert_2.
Qed.

Lemma valid_db_delete_banned uid db :
  valid_db db → valid_db (delete_banned uid db).
Proof.
  intros (Husers & Hadmins & Hbanned & Hlog). unfold valid_db.
  split_and!; simpl; try done. by apply map_Forall_delete.
Qed.

Lemma valid_db_save_lookup ts date uid cmd q res db :
  int64 uid → valid_db db →
  valid_db (upsert_daily_stats date cmd
              (bump_total_lookups uid (insert_lookup ts uid cmd q res db))).
Proof.
  intros Hu (Husers & Hadmins & Hbanned & Hlog).
  assert (Hbump : map_Forall (λ k _, int64 k) (alter bump uid (users db))).
  { intros k r Hk. rewrite lookup_alter in Hk.
    destruct (decide (uid = k)) as [<- |]; [done |]. by eapply Husers. }
  assert (Hsnoc : Forall (λ r, int64 (user_id r))
            (lookups db ++ [{| lookup_id := next_lookup_id db; user_id := uid;
                               command := cmd; query := q; result := res;
                               timestamp := ts |}])).
  { apply Forall_app. split; [done |]. apply Forall_singleton. done. }
  unfold upsert_daily_stats, valid_db.
  destruct (daily_stats _ !! _); split_and!; simpl; done.
Qed.


Lemma valid_db_admin_key db uid r :
  valid_db db → admins db !! uid = Some r → int64 uid.
Proof. intros (_ & Hadmins & _) Hr. by apply (Hadmins uid r). Qed.


(** Validity of a concrete database, and the range of a concrete integer,
    by evaluation. *)
Ltac by_evaluation := apply (bool_decide_unpack _); vm_compute; exact I.

(** ** Bans *)




Lemma ban_user_fresh t uid why by_ db :
  int64 uid → int64 by_ →
  banned db !! uid = None →
  ban_user t uid why by_ db
  = (Done (),
     set_banned (<[uid := {| reason := why; banned_by := by_;
                             banned_on := current_timestamp t |}]> (banned db))
                db).
Proof.
  intros Hu Hb Hnone. rewrite ban_user_eq, (bound uid), (bound by_) by done.
  simpl. unfold insert_banned. by rewrite Hnone.
Qed.




(** ** Daily statistics *)

(** C6.  [get_daily_stats] raises for every argument and every database: the
    statement has no placeholder (its [?] is inside a quoted token) and one
    value is bound, which the driver rejects with ProgrammingError.  No row
    is returned. *)
Theorem get_daily_stats_raises days db :
  get_daily_stats days db = (Raised ProgrammingError, db).
Proof. reflexivity. Qed.

(** With a counter for today in the table, asking for the last 7 days
    raises all the same. *)
Example get_daily_stats_after_lookup :
  let db := (save_lookup json_dumps_int noon 7 "phone" "5551234" 42
               empty_db).2 in
  daily_stats db !! ("2024-05-01", "phone") = Some 1 ∧
  get_daily_stats 7 db = (Raised ProgrammingError, db).
Proof. split; vm_compute; reflexivity. Qed.

(** ** Admins *)

Lemma filter_key_absent {V} (k : Z) (l : list (Z * V)) :
  k ∉ l.*1 → filter (λ p, p.1 = k) l = [].
Proof.
  induction l as [|[k' v'] l IH]; intros Hk; [done |].
  simpl in Hk. apply not_elem_of_cons in Hk as [Hne Hk].
  rewrite filter_cons_False by (simpl; congruence). by apply IH.
Qed.

Lemma filter_key_NoDup {V} (k : Z) (v : V) (l : list (Z * V)) :
  NoDup l.*1 → (k, v) ∈ l → filter (λ p, p.1 = k) l = [(k, v)].
Proof.
  induction l as [|[k' v'] l IH]; intros Hnd Hin.
  - by apply elem_of_nil in Hin.
  - simpl in Hnd. apply NoDup_cons in Hnd as [Hk' Hnd].
    apply elem_of_cons in Hin as [Heq | Hin].
    + inversion Heq; subst k' v'. rewrite filter_cons_True by done.
      by rewrite filter_key_absent.
    + assert (k' ≠ k) as Hne.
      { intros ->. apply Hk'. apply list_elem_of_fmap. by exists (k, v). }
      rewrite filter_cons_False by done. by apply IH.
Qed.

Lemma rows_with_key_Some {V} (k : Z) (v : V) (m : gmap Z V) :
  m !! k = Some v → rows_with_key k m = [(k, v)].
Proof.
  intros Hm. apply filter_key_NoDup.
  - apply NoDup_fst_map_to_list.
  - by apply elem_of_map_to_list.
Qed.

(** C5, as the code has it.  For a user_id and added_by values that are
    64-bit integers, [add_admin] called twice raises at neither call; after
    them [admins] has exactly one row for the user_id; the second call
    leaves the database as the first left it, so the row keeps its added_by
    and added_on: those of the first call (or of the row that was there
    before it), never those of the second. *)
Theorem add_admin_twice t1 by1 t2 by2 uid db :
  int64 uid → int64 by1 → int64 by2 →
  ∃ db1 row,
    add_admin t1 uid by1 db = (Done (), db1) ∧
    add_admin t2 uid by2 db1 = (Done (), db1) ∧
    rows_with_key uid (admins db1) = [(uid, row)] ∧
    row = default {| added_by := by1; added_on := current_timestamp t1 |}
                  (admins db !! uid).
Proof.
  intros Hu H1 H2. rewrite add_admin_eq, (bound uid), (bound by1) by done.
  simpl.
  destruct (admins db !! uid) as [old|] eqn:Hold.
  - exists db, old. unfold insert_or_ignore_admin. rewrite Hold.
    split; [done |]. rewrite add_admin_eq, (bound uid), (bound by2) by done.
    simpl. unfold insert_or_ignore_admin.
    rewrite Hold. split; [done |]. split; [| done].
    by apply rows_with_key_Some.
  - eexists _, _. unfold insert_or_ignore_admin at 1. rewrite Hold.
    split; [reflexivity |].
    rewrite add_admin_eq, (bound uid), (bound by2) by done. simpl.
    unfold insert_or_ignore_admin. simpl. rewrite lookup_insert_eq.
    split; [done |]. split; [| done].
    apply rows_with_key_Some, lookup_insert_eq.
Qed.

Lemma add_admin_twice_witness :
  int64 7 ∧ int64 1 ∧ int64 2 ∧
  ∃ db1 row,
    add_admin noon 7 1 two_users = (Done (), db1) ∧
    add_admin evening 7 2 db1 = (Done (), db1) ∧
    rows_with_key 7 (admins db1) = [(7, row)] ∧
    row = default {| added_by := 1; added_on := current_timestamp noon |}
                  (admins two_users !! 7).
Proof.
  assert (H7 : int64 7) by by_evaluation.
  assert (H1 : int64 1) by by_evaluation.
  assert (H2 : int64 2) by by_evaluation.
  split; [exact H7 |]. split; [exact H1 |]. split; [exact H2 |].
  exact (add_admin_twice noon 1 evening 2 7 two_users H7 H1 H2).
Defined.

(** C5, as the spec words it, fails for a user_id that is no 64-bit
    integer: [add_admin] for user_id 2^63 raises OverflowError, at the first
    call as at the second, and no row is written. *)
Lemma add_admin_too_big :
  add_admin noon too_big 1 empty_db = (Raised OverflowError, empty_db) ∧
  add_admin evening too_big 1
    (add_admin noon too_big 1 empty_db).2 = (Raised OverflowError, empty_db) ∧
  rows_with_key too_big (admins empty_db) = [].
Proof. repeat split; vm_compute; reflexivity. Qed.

(** ** Users *)




(** ** Recording a lookup *)









(** ** Statistics *)

Lemma or_zero_sql_sum col : or_zero (sql_sum col) = foldr Z.add 0 col.
Proof.
  destruct col as [|z col]; [reflexivity |].
  unfold sql_sum, or_zero. case_decide; congruence.
Qed.

(** C7.  In every database state [get_stats] returns, without changing the
    database, the record whose total_users, total_admins and total_banned are
    the row counts of [users], [admins] and [banned], and whose total_lookups
    is the sum of total_lookups over the user rows; that sum is 0 when
    [users] is empty. *)
Theorem get_stats_totals db :
  ∃ s,
    get_stats db = (Done s, db) ∧
    Stats.total_users s = Z.of_nat (length (map_to_list (users db))) ∧
    Stats.total_admins s = Z.of_nat (length (map_to_list (admins db))) ∧
    Stats.total_banned s = Z.of_nat (length (map_to_list (banned db))) ∧
    Stats.total_lookups s
    = foldr Z.add 0 (total_lookups <$> (map_to_list (users db)).*2) ∧
    (users db = ∅ → Stats.total_lookups s = 0).
Proof.
  eexists. rewrite get_stats_eq. split; [reflexivity |]. simpl.
  rewrite !length_map_to_list, or_zero_sql_sum.
  repeat split. intros ->. by rewrite map_to_list_empty.
Qed.

Lemma get_stats_totals_witness :
  ∃ s, get_stats empty_db = (Done s, empty_db) ∧ Stats.total_lookups s = 0.
Proof.
  destruct (get_stats_totals empty_db) as (s & Hs & _ & _ & _ & _ & Hzero).
  exists s. split; [exact Hs | exact (Hzero eq_refl)].
Defined.

(** ** Sorting *)

Section StableSortFacts.

Context {A : Type} (before : A → A → bool).

Lemma insert_sorted_perm x l : insert_sorted before x l ≡ₚ x :: l.
Proof.
  induction l as [|y l IH]; [done |]. simpl.
  destruct (before y x); [| done]. rewrite IH. apply Permutation_swap.
Qed.

Lemma stable_sort_perm l : stable_sort before l ≡ₚ l.
Proof.
  induction l as [|x l IH]; [done |]. unfold stable_sort in *. simpl.
  by rewrite insert_sorted_perm, IH.
Qed.

(** The sort orders by every transitive relation that holds from a row to
    the rows it is strictly before, and from a row to the rows that are not
    strictly before it. *)
Context (R : relation A) `{!Transitive R}.
Hypothesis R_before : ∀ x y, before x y = true → R x y.
Hypothesis R_not_before : ∀ x y, before y x = false → R x y.

Lemma insert_sorted_sorted x l :
  StronglySorted R l → StronglySorted R (insert_sorted before x l).
Proof.
  induction l as [|y l IH]; intros Hl; simpl.
  - repeat constructor.
  - apply StronglySorted_cons in Hl as [Hy Hl].
    destruct (before y x) eqn:Hyx.
    + apply StronglySorted_cons. split; [| by apply IH].
      rewrite insert_sorted_perm. constructor; [by apply R_before | done].
    + apply StronglySorted_cons. split.
      * constructor; [by apply R_not_before |].
        eapply Forall_impl; [exact Hy |]. intros z Hz. simpl in Hz.
        etrans; [by apply R_not_before | done].
      * by apply StronglySorted_cons.
Qed.

Lemma stable_sort_sorted l : StronglySorted R (stable_sort before l).
Proof.
  induction l as [|x l IH]; [constructor |].
  unfold stable_sort in *. simpl. by apply insert_sorted_sorted.
Qed.

End StableSortFacts.

Section Limits.

Context {A : Type}.

Lemma sql_limit_length (n : Z) (l : list A) :
  0 ≤ n → length (sql_limit n l) = Nat.min (Z.to_nat n) (length l).
Proof.
  intros Hn. unfold sql_limit. rewrite decide_False by lia.
  apply length_take.
Qed.

Lemma sql_limit_negative (n : Z) (l : list A) : n < 0 → sql_limit n l = l.
Proof. intros Hn. unfold sql_limit. by rewrite decide_True. Qed.

Lemma sql_limit_sublist (n : Z) (l : list A) : sql_limit n l `sublist_of` l.
Proof. unfold sql_limit. case_decide; [done | apply sublist_take]. Qed.

Lemma sql_limit_elem_of (n : Z) (l : list A) x : x ∈ sql_limit n l → x ∈ l.
Proof. intros Hx. eapply elem_of_sublist; [done | apply sql_limit_sublist]. Qed.

Lemma sql_limit_sorted (R : relation A) (n : Z) (l : list A) :
  StronglySorted R l → StronglySorted R (sql_limit n l).
Proof.
  intros Hl. unfold sql_limit. case_decide; [done |].
  rewrite <- (take_drop (Z.to_nat n) l) in Hl.
  by apply StronglySorted_app_1_l in Hl.
Qed.

End Limits.

(** ** The leaderboard *)

Global Instance key_le_total : Total key_le.
Proof. intros a b. unfold key_le. lia. Qed.

Global Instance key_le_trans : Transitive key_le.
Proof. intros a b c. unfold key_le. lia. Qed.

Lemma scan_ascending_perm m : scan_ascending m ≡ₚ map_to_list m.
Proof. apply stable_sort_perm. Qed.

Lemma scan_ascending_sorted m : StronglySorted key_le (scan_ascending m).
Proof.
  apply stable_sort_sorted; [apply _ | |]; intros x y Hxy;
    unfold key_before, key_le in *.
  - apply bool_decide_eq_true in Hxy. lia.
  - apply bool_decide_eq_false in Hxy. lia.
Qed.

(** A pair goes into a leaderboard whose user_ids are not smaller than its
    own. *)
Lemma insert_leaderboard x l :
  Forall (λ y, x.1 ≤ y.1) l →
  StronglySorted leaderboard_order l →
  StronglySorted leaderboard_order (insert_sorted more_lookups x l).
Proof.
  induction l as [|y l IH]; intros Hkeys Hl; simpl.
  - repeat constructor.
  - apply Forall_cons in Hkeys as [Hxy Hkeys].
    apply StronglySorted_cons in Hl as [Hy Hl].
    unfold more_lookups at 1. case_bool_decide as Hlt.
    + apply StronglySorted_cons. split; [| by apply IH].
      rewrite insert_sorted_perm. constructor; [by left | done].
    + apply StronglySorted_cons. split; [| by apply StronglySorted_cons].
      constructor; [unfold leaderboard_order; lia |].
      rewrite Forall_forall in Hy, Hkeys. apply Forall_forall.
      intros z Hz. specialize (Hy z Hz). specialize (Hkeys z Hz).
      unfold leaderboard_order in *. lia.
Qed.

Lemma stable_sort_leaderboard l :
  StronglySorted (λ a b : Z * Z, a.1 ≤ b.1) l →
  StronglySorted leaderboard_order (stable_sort more_lookups l).
Proof.
  induction l as [|x l IH]; intros Hl; [constructor |].
  apply StronglySorted_cons in Hl as [Hx Hl].
  unfold stable_sort in *. simpl. apply insert_leaderboard; [| by apply IH].
  change (foldr (insert_sorted more_lookups) [] l)
    with (stable_sort more_lookups l).
  by rewrite stable_sort_perm.
Qed.

Lemma leaderboard_rows_sorted db :
  StronglySorted (λ a b : Z * Z, a.1 ≤ b.1) (leaderboard_rows db).
Proof.
  unfold leaderboard_rows.
  apply (StronglySorted_fmap _ key_le); [by intros x y |].
  apply scan_ascending_sorted.
Qed.

(** C8, as the code has it.  For every limit that is not negative and is a
    64-bit integer, [get_leaderboard] returns at most limit (user_id,
    total_lookups) pairs: the first min(limit, number of users) of the user
    rows ordered by total_lookups descending, rows with equal total_lookups
    in ascending user_id. *)
Theorem get_leaderboard_ordered limit db :
  0 ≤ limit → int64 limit →
  ∃ rows rest,
    get_leaderboard limit db = (Done rows, db) ∧
    Z.of_nat (length rows) ≤ limit ∧
    length rows = Nat.min (Z.to_nat limit) (length (map_to_list (users db))) ∧
    StronglySorted leaderboard_order (rows ++ rest) ∧
    rows ++ rest
    ≡ₚ (λ p, (p.1, total_lookups p.2)) <$> map_to_list (users db).
Proof.
  intros Hlimit Hint. rewrite get_leaderboard_eq, (bound limit) by done.
  unfold select_leaderboard, sql_limit.
  rewrite decide_False by lia.
  set (sorted := stable_sort more_lookups (leaderboard_rows db)).
  assert (Hperm : sorted
            ≡ₚ (λ p, (p.1, total_lookups p.2)) <$> map_to_list (users db)).
  { unfold sorted. rewrite stable_sort_perm. unfold leaderboard_rows.
    by rewrite scan_ascending_perm. }
  assert (Hlen : length sorted = length (map_to_list (users db))).
  { by rewrite Hperm, length_fmap. }
  exists (take (Z.to_nat limit) sorted), (drop (Z.to_nat limit) sorted).
  split; [reflexivity |]. rewrite take_drop, length_take, Hlen.
  repeat split; [lia | | done].
  apply stable_sort_leaderboard, leaderboard_rows_sorted.
Qed.

Lemma get_leaderboard_ordered_witness :
  0 ≤ 2 ∧ int64 2 ∧
  ∃ rows rest,
    get_leaderboard 2 three_users = (Done rows, three_users) ∧
    Z.of_nat (length rows) ≤ 2 ∧
    length rows
    = Nat.min (Z.to_nat 2) (length (map_to_list (users three_users))) ∧
    StronglySorted leaderboard_order (rows ++ rest) ∧
    rows ++ rest
    ≡ₚ (λ p, (p.1, total_lookups p.2)) <$> map_to_list (users three_users).
Proof.
  assert (H : 0 ≤ 2) by lia.
  assert (Hi : int64 2) by by_evaluation.
  split; [exact H |]. split; [exact Hi |].
  exact (get_leaderboard_ordered 2 three_users H Hi).
Defined.

(** Three users tie at 0 lookups: they come in ascending user_id, and
    under LIMIT 2 the users 1 and 2 are returned. *)
Example get_leaderboard_three_tied :
  get_leaderboard 10 three_users
  = (Done [(1, 0); (2, 0); (3, 0)], three_users) ∧
  get_leaderboard 2 three_users = (Done [(1, 0); (2, 0)], three_users).
Proof. split; vm_compute; reflexivity. Qed.

(** A negative limit is no limit: every user row is returned. *)
Lemma get_leaderboard_negative_limit limit db :
  limit < 0 → int64 limit →
  get_leaderboard limit db
  = (Done (stable_sort more_lookups (leaderboard_rows db)), db).
Proof.
  intros Hneg Hint. rewrite get_leaderboard_eq, (bound limit) by done.
  unfold select_leaderboard. by rewrite sql_limit_negative.
Qed.

(** C8, as the spec words it, fails outside these limits.  Limit -1 returns
    both users of a database of two, not at most -1 of them; and limit 2^63
    returns nothing: the call raises OverflowError. *)
Lemma get_leaderboard_limit_out_of_range :
  (∃ rows,
     get_leaderboard (-1) two_users = (Done rows, two_users) ∧
     rows = [(1, 0); (2, 0)] ∧
     ¬ Z.of_nat (length rows) ≤ -1) ∧
  get_leaderboard too_big two_users = (Raised OverflowError, two_users).
Proof.
  split; [| vm_compute; reflexivity].
  exists [(1, 0); (2, 0)]. split; [vm_compute; reflexivity |].
  split; [reflexivity | simpl; lia].
Qed.

(** ** total_lookups against the rows of lookups *)







Section Sequences.

Context {Value : Type} (json_dumps : Value → string).

Lemma run_cons (c : call) cs db :
  run json_dumps (c :: cs) db = run json_dumps cs (perform json_dumps c db).
Proof. reflexivity. Qed.

Lemma perform_update_user t uid uname fname lname db :
  perform json_dumps (call_update_user t uid uname fname lname) db
  = if bool_decide (int64 uid)
    then upsert_user (now_iso t) uid uname fname lname db else db.
Proof.
  unfold perform. rewrite update_user_eq.
  by destruct (bool_decide (int64 uid)).
Qed.

Lemma perform_save_lookup t uid cmd q res db :
  perform json_dumps (call_save_lookup t uid cmd q res) db
  = if bool_decide (int64 uid)
    then upsert_daily_stats (today t) cmd
           (bump_total_lookups uid
              (insert_lookup (current_timestamp t) uid cmd q
                 (json_dumps res) db))
    else db.
Proof.
  unfold perform. rewrite save_lookup_eq.
  by destruct (bool_decide (int64 uid)).
Qed.

(** Only [update_user] and [save_lookup] write to [users] or [lookups]. *)
Lemma perform_same_tables (c : call) db :
  match c with
  | call_update_user _ _ _ _ _ | call_save_lookup _ _ _ _ _ => False
  | _ => True
  end →
  users (perform json_dumps c db) = users db ∧
  lookups (perform json_dumps c db) = lookups db.
Proof.
  destruct c; intros Hc; try done; unfold perform.
  - rewrite get_user_eq. by destruct (bool_decide (int64 uid)).
  - rewrite is_admin_eq. by destruct (bool_decide (int64 uid)).
  - rewrite add_admin_eq.
    destruct (bool_decide (int64 uid) && bool_decide (int64 by_)); [| done].
    simpl. unfold insert_or_ignore_admin. by destruct (admins db !! uid).
  - rewrite remove_admin_eq. by destruct (bool_decide (int64 uid)).
  - rewrite is_banned_eq. by destruct (bool_decide (int64 uid)).
  - rewrite ban_user_eq.
    destruct (bool_decide (int64 uid) && bool_decide (int64 by_)); [| done].
    unfold insert_banned. by destruct (banned db !! uid).
  - rewrite unban_user_eq. by destruct (bool_decide (int64 uid)).
  - rewrite get_leaderboard_eq. by destruct (bool_decide (int64 limit)).
Qed.



End Sequences.


(** Without the registration first the counter falls behind: the lookup of
    an unregistered user is logged but counted nowhere, and the row that
    [update_user] creates afterwards starts at 0. *)
Lemma total_lookups_behind_without_upsert :
  let db := run json_dumps_int unregistered_calls (init_db None) in
  upserted_before_lookup ∅ unregistered_calls = false ∧
  total_lookups <$> users db !! 7 = Some 0 ∧
  lookups_of 7 (lookups db) = 1%nat.
Proof. vm_compute. done. Qed.

(** * Further properties of the module *)

(** ** Granting and revoking *)

Lemma set_admins_same db : set_admins (admins db) db = db.
Proof. by destruct db. Qed.

Lemma set_banned_same db : set_banned (banned db) db = db.
Proof. by destruct db. Qed.

(** For a user_id and an added_by that are 64-bit integers, [add_admin]
    returns and the user is an admin afterwards, whatever the database was;
    the admin status of every other user and every ban are as before. *)
Theorem is_admin_after_add_admin t uid by_ db :
  int64 uid → int64 by_ →
  ∃ db',
    add_admin t uid by_ db = (Done (), db') ∧
    is_admin uid db' = (Done true, db') ∧
    (∀ other, other ≠ uid → (is_admin other db').1 = (is_admin other db).1) ∧
    (∀ any, (is_banned any db').1 = (is_banned any db).1).
Proof.
  intros Hu Hb. eexists.
  rewrite add_admin_eq, (bound uid), (bound by_) by done.
  split; [reflexivity |].
  rewrite is_admin_eq, (bound uid) by done. unfold insert_or_ignore_admin.
  destruct (admins db !! uid) as [old|] eqn:Hold; simpl.
  - rewrite Hold. repeat split.
  - rewrite lookup_insert_eq. split; [done |]. split.
    + intros other Hne. rewrite !is_admin_eq.
      destruct (bool_decide (int64 other)); [| done]. simpl.
      by rewrite lookup_insert_ne.
    + intros any. rewrite !is_banned_eq.
      by destruct (bool_decide (int64 any)).
Qed.

Lemma is_admin_after_add_admin_witness :
  int64 2 ∧ int64 1 ∧
  ∃ db',
    add_admin noon 2 1 two_users = (Done (), db') ∧
    is_admin 2 db' = (Done true, db') ∧
    (∀ other, other ≠ 2 →
       (is_admin other db').1 = (is_admin other two_users).1) ∧
    (∀ any, (is_banned any db').1 = (is_banned any two_users).1).
Proof.
  assert (H2 : int64 2) by by_evaluation.
  assert (H1 : int64 1) by by_evaluation.
  split; [exact H2 |]. split; [exact H1 |].
  exact (is_admin_after_add_admin noon 2 1 two_users H2 H1).
Defined.

(** For a user_id and an added_by that are 64-bit integers, [remove_admin]
    returns; afterwards the user is no admin, the others are what they
    were, and a later [add_admin] grants afresh: the row then carries the
    later call's added_by and added_on. *)
Theorem remove_admin_revokes t uid by_ db :
  int64 uid → int64 by_ →
  ∃ db1 db2,
    remove_admin uid db = (Done (), db1) ∧
    is_admin uid db1 = (Done false, db1) ∧
    (∀ other, other ≠ uid → admins db1 !! other = admins db !! other) ∧
    add_admin t uid by_ db1 = (Done (), db2) ∧
    admins db2 !! uid
    = Some {| added_by := by_; added_on := current_timestamp t |}.
Proof.
  intros Hu Hb. eexists _, _. rewrite remove_admin_eq, (bound uid) by done.
  split; [reflexivity |].
  rewrite is_admin_eq, add_admin_eq, (bound uid), (bound by_) by done.
  unfold insert_or_ignore_admin. simpl. rewrite lookup_delete_eq. simpl.
  split; [reflexivity |]. split.
  { intros other Hne. by rewrite lookup_delete_ne. }
  split; [reflexivity |]. simpl. by rewrite lookup_insert_eq.
Qed.

Lemma remove_admin_revokes_witness :
  int64 1 ∧ int64 2 ∧
  ∃ db1 db2,
    remove_admin 1 one_admin = (Done (), db1) ∧
    is_admin 1 db1 = (Done false, db1) ∧
    (∀ other, other ≠ 1 → admins db1 !! other = admins one_admin !! other) ∧
    add_admin evening 1 2 db1 = (Done (), db2) ∧
    admins db2 !! 1
    = Some {| added_by := 2; added_on := current_timestamp evening |}.
Proof.
  assert (H1 : int64 1) by by_evaluation.
  assert (H2 : int64 2) by by_evaluation.
  split; [exact H1 |]. split; [exact H2 |].
  exact (remove_admin_revokes evening 1 2 one_admin H1 H2).
Defined.

(** [remove_admin] for a user_id that is a 64-bit integer and no admin
    returns and changes nothing. *)
Theorem remove_admin_absent uid db :
  int64 uid →
  admins db !! uid = None → remove_admin uid db = (Done (), db).
Proof.
  intros Hu Hnone. rewrite remove_admin_eq, (bound uid) by done.
  unfold delete_admin. by rewrite delete_id, set_admins_same.
Qed.

Lemma remove_admin_absent_witness :
  int64 1 ∧ admins two_users !! 1 = None ∧
  remove_admin 1 two_users = (Done (), two_users).
Proof.
  assert (H1 : int64 1) by by_evaluation.
  assert (H : admins two_users !! 1 = None) by reflexivity.
  split; [exact H1 |].
  split; [exact H | exact (remove_admin_absent 1 two_users H1 H)].
Defined.



(** [unban_user] for a user_id that is a 64-bit integer returns, banned or
    not; afterwards [is_banned] answers false for the user, and the other
    bans are untouched. *)
Theorem is_banned_after_unban_user uid db :
  int64 uid →
  ∃ db',
    unban_user uid db = (Done (), db') ∧
    is_banned uid db' = (Done false, db') ∧
    (∀ other, other ≠ uid → banned db' !! other = banned db !! other).
Proof.
  intros Hu. eexists. rewrite unban_user_eq, (bound uid) by done.
  split; [reflexivity |].
  rewrite is_banned_eq, (bound uid) by done. simpl.
  rewrite lookup_delete_eq. repeat split.
  intros other Hne. by rewrite lookup_delete_ne.
Qed.

Lemma is_banned_after_unban_user_witness :
  int64 5 ∧
  ∃ db',
    unban_user 5 one_banned = (Done (), db') ∧
    is_banned 5 db' = (Done false, db') ∧
    (∀ other, other ≠ 5 → banned db' !! other = banned one_banned !! other).
Proof.
  assert (H5 : int64 5) by by_evaluation.
  split; [exact H5 | exact (is_banned_after_unban_user 5 one_banned H5)].
Defined.

(** Banning a user who was not banned (user_id and banned_by 64-bit
    integers) and unbanning the user again gives back the database as it
    was, in every table. *)
Theorem unban_undoes_ban t uid why by_ db :
  int64 uid → int64 by_ →
  banned db !! uid = None →
  unban_user uid (ban_user t uid why by_ db).2 = (Done (), db).
Proof.
  intros Hu Hb Hnone. rewrite (ban_user_fresh _ _ _ _ _ Hu Hb Hnone).
  rewrite unban_user_eq, (bound uid) by done.
  unfold delete_banned. simpl.
  rewrite delete_insert_eq, delete_id by done. by destruct db.
Qed.

Lemma unban_undoes_ban_witness :
  int64 2 ∧ int64 1 ∧
  banned two_users !! 2 = None ∧
  unban_user 2 (ban_user noon 2 "spam" 1 two_users).2 = (Done (), two_users).
Proof.
  assert (H2 : int64 2) by by_evaluation.
  assert (H1 : int64 1) by by_evaluation.
  assert (H : banned two_users !! 2 = None) by reflexivity.
  split; [exact H2 |]. split; [exact H1 |].
  split; [exact H | exact (unban_undoes_ban noon 2 "spam" 1 _ H2 H1 H)].
Defined.

(** What the binding refuses changes nothing: with a user_id or a
    banned_by of 2^63 the granting and revoking functions raise
    OverflowError and leave the database as it was. *)
Example out_of_range_calls_raise :
  add_admin noon too_big 1 two_users = (Raised OverflowError, two_users) ∧
  remove_admin too_big two_users = (Raised OverflowError, two_users) ∧
  ban_user noon 5 "spam" too_big two_users = (Raised OverflowError, two_users) ∧
  unban_user too_big two_users = (Raised OverflowError, two_users) ∧
  update_user noon too_big (Some "big") None None two_users
  = (Raised OverflowError, two_users).
Proof. repeat split; vm_compute; reflexivity. Qed.

(** ** Registering users *)




(** ** What call sequences keep *)

Lemma sumZ_perm l1 l2 : l1 ≡ₚ l2 → sumZ l1 = sumZ l2.
Proof.
  induction 1 as [| x l1 l2 _ IH | x y l | l1 l2 l3 _ IH1 _ IH2];
    unfold sumZ in *; simpl; lia.
Qed.

Section MapSums.

Context {K : Type} `{Countable K} {V : Type} (f : K * V → Z).

Lemma sum_insert_fresh (k : K) (v : V) (m : gmap K V) :
  m !! k = None →
  sumZ (f <$> map_to_list (<[k := v]> m))
  = f (k, v) + sumZ (f <$> map_to_list m).
Proof.
  intros Hm. rewrite (sumZ_perm _ (f <$> (k, v) :: map_to_list m)).
  - by rewrite fmap_cons.
  - by rewrite map_to_list_insert.
Qed.

Lemma sum_insert_existing (k : K) (v v' : V) (m : gmap K V) :
  m !! k = Some v →
  sumZ (f <$> map_to_list (<[k := v']> m))
  = f (k, v') - f (k, v) + sumZ (f <$> map_to_list m).
Proof.
  intros Hm. rewrite <- insert_delete_eq.
  rewrite sum_insert_fresh by apply lookup_delete_eq.
  rewrite (sumZ_perm (f <$> map_to_list m)
             (f <$> (k, v) :: map_to_list (delete k m))).
  - rewrite fmap_cons. unfold sumZ. simpl. lia.
  - by rewrite map_to_list_delete.
Qed.

End MapSums.

Lemma max_lookup_id_bound (n : Z) (l : list lookup_row) :
  0 ≤ n → Forall (λ r, lookup_id r ≤ n) l → max_lookup_id l ≤ n.
Proof.
  intros Hn. induction 1 as [| r l Hr _ IH]; unfold max_lookup_id in *;
    simpl; lia.
Qed.

Section Histories.

Context {Value : Type} (json_dumps : Value → string).

(** Only a [save_lookup] that can be bound writes to [lookups] or
    [daily_stats]. *)
Lemma perform_keeps_log (c : call) db :
  logged json_dumps c = None →
  lookups (perform json_dumps c db) = lookups db ∧
  lookups_seq (perform json_dumps c db) = lookups_seq db ∧
  daily_stats (perform json_dumps c db) = daily_stats db.
Proof.
  destruct c; intros Hc; try done.
  - rewrite perform_update_user.
    destruct (bool_decide (int64 uid)); [| done].
    unfold upsert_user. by destruct (users db !! uid).
  - unfold perform. rewrite get_user_eq.
    by destruct (bool_decide (int64 uid)).
  - unfold perform. rewrite is_admin_eq.
    by destruct (bool_decide (int64 uid)).
  - unfold perform. rewrite add_admin_eq.
    destruct (bool_decide (int64 uid) && bool_decide (int64 by_)); [| done].
    simpl. unfold insert_or_ignore_admin. by destruct (admins db !! uid).
  - unfold perform. rewrite remove_admin_eq.
    by destruct (bool_decide (int64 uid)).
  - unfold perform. rewrite is_banned_eq.
    by destruct (bool_decide (int64 uid)).
  - unfold perform. rewrite ban_user_eq.
    destruct (bool_decide (int64 uid) && bool_decide (int64 by_)); [| done].
    unfold insert_banned. by destruct (banned db !! uid).
  - unfold perform. rewrite unban_user_eq.
    by destruct (bool_decide (int64 uid)).
  - rewrite perform_save_lookup. simpl in Hc.
    destruct (decide (int64 uid)) as [Hint | Hint]; [done |].
    by rewrite (unbound uid).
  - unfold perform. rewrite get_leaderboard_eq.
    by destruct (bool_decide (int64 limit)).
Qed.

Lemma upsert_daily_stats_tables date cmd w :
  users (upsert_daily_stats date cmd w) = users w ∧
  lookups (upsert_daily_stats date cmd w) = lookups w ∧
  lookups_seq (upsert_daily_stats date cmd w) = lookups_seq w.
Proof.
  unfold upsert_daily_stats. by destruct (daily_stats w !! (date, cmd)).
Qed.

Lemma lookups_save_lookup t uid cmd q res db :
  int64 uid →
  lookups (perform json_dumps (call_save_lookup t uid cmd q res) db)
  = lookups db ++ [{| lookup_id := next_lookup_id db; user_id := uid;
                      command := cmd; query := q; result := json_dumps res;
                      timestamp := current_timestamp t |}].
Proof.
  intros Hint. rewrite perform_save_lookup, (bound uid) by done.
  by destruct (upsert_daily_stats_tables (today t) cmd
      (bump_total_lookups uid
         (insert_lookup (current_timestamp t) uid cmd q (json_dumps res) db)))
    as (_ & -> & _).
Qed.

Lemma logged_save_lookup (c : call) e :
  logged json_dumps c = Some e →
  ∃ t uid cmd q res,
    c = call_save_lookup t uid cmd q res ∧ int64 uid ∧
    e = (uid, cmd, q, json_dumps res).
Proof.
  destruct c; try discriminate. simpl.
  destruct (decide (int64 uid)); [| discriminate].
  intros [= <-]. by eexists _, _, _, _, _.
Qed.


Lemma perform_keeps_user (c : call) db uid r :
  users db !! uid = Some r →
  ∃ r', users (perform json_dumps c db) !! uid = Some r' ∧
        first_seen r' = first_seen r ∧
        total_lookups r ≤ total_lookups r'.
Proof.
  intros Hr.
  assert (Hsame : ∃ r', users db !! uid = Some r' ∧
                        first_seen r' = first_seen r ∧
                        total_lookups r ≤ total_lookups r').
  { exists r. split; [done | split; [done | lia]]. }
  destruct c;
    try (match goal with
         | |- context [perform json_dumps ?c db] =>
             destruct (perform_same_tables json_dumps c db) as [-> _];
               [exact I | exact Hsame]
         end).
  - (* update_user *)
    rewrite perform_update_user.
    destruct (bool_decide (int64 uid0)); [| done].
    unfold upsert_user.
    destruct (decide (uid0 = uid)) as [-> |].
    + rewrite Hr. simpl. rewrite lookup_insert_eq. eexists.
      split; [done |]. simpl. split; [done | lia].
    + destruct (users db !! uid0); simpl; rewrite lookup_insert_ne by done;
        done.
  - (* save_lookup *)
    rewrite perform_save_lookup.
    destruct (bool_decide (int64 uid0)); [| done].
    destruct (upsert_daily_stats_tables (today t) cmd
      (bump_total_lookups uid0
         (insert_lookup (current_timestamp t) uid0 cmd q (json_dumps res) db)))
      as (-> & _). simpl. rewrite lookup_alter.
    destruct (decide (uid0 = uid)) as [-> |]; [| done].
    rewrite Hr. simpl. eexists. split; [done |]. simpl. split; [done | lia].
Qed.

(** No call deletes a user row, changes its first_seen, or lowers its
    total_lookups: a user row present before a sequence of calls is present
    after it, first seen when it was and with at least as many lookups. *)
Theorem users_kept (cs : list call) db uid r :
  users db !! uid = Some r →
  ∃ r', users (run json_dumps cs db) !! uid = Some r' ∧
        first_seen r' = first_seen r ∧
        total_lookups r ≤ total_lookups r'.
Proof.
  revert db r. induction cs as [|c cs IH]; intros db r Hr.
  - exists r. split; [done | split; [done | lia]].
  - rewrite run_cons.
    destruct (perform_keeps_user c db uid r Hr) as (r1 & Hr1 & Hf1 & Ht1).
    destruct (IH _ _ Hr1) as (r2 & Hr2 & Hf2 & Ht2).
    exists r2. split; [done |]. split; [congruence | lia].
Qed.

(** Every call keeps the database one the engine can hold. *)
Lemma valid_db_perform (c : call) db :
  valid_db db → valid_db (perform json_dumps c db).
Proof.
  intros Hv. destruct c; try done; unfold perform.
  - rewrite update_user_eq. case_bool_decide; [| done].
    by apply valid_db_upsert_user.
  - rewrite get_user_eq. by destruct (bool_decide (int64 uid)).
  - rewrite is_admin_eq. by destruct (bool_decide (int64 uid)).
  - rewrite add_admin_eq. do 2 (case_bool_decide; [| done]).
    by apply valid_db_insert_admin.
  - rewrite remove_admin_eq. case_bool_decide; [| done].
    by apply valid_db_delete_admin.
  - rewrite is_banned_eq. by destruct (bool_decide (int64 uid)).
  - rewrite ban_user_eq. do 2 (case_bool_decide; [| done]).
    by apply valid_db_insert_banned.
  - rewrite unban_user_eq. case_bool_decide; [| done].
    by apply valid_db_delete_banned.
  - rewrite save_lookup_eq. case_bool_decide; [| done].
    by apply valid_db_save_lookup.
  - rewrite get_leaderboard_eq. by destruct (bool_decide (int64 limit)).
Qed.

Lemma valid_db_run (cs : list call) db :
  valid_db db → valid_db (run json_dumps cs db).
Proof.
  revert db. induction cs as [|c cs IH]; intros db Hv; [done |].
  rewrite run_cons. by apply IH, valid_db_perform.
Qed.

End Histories.

Lemma users_kept_witness :
  users two_users !! 1
  = Some {| first_seen := now_iso noon; last_seen := now_iso noon;
            total_lookups := 0; username := Some "ann";
            first_name := None; last_name := None |} ∧
  ∃ r', users (run json_dumps_int session_calls two_users) !! 1 = Some r' ∧
        first_seen r' = now_iso noon ∧ 0 ≤ total_lookups r'.
Proof.
  assert (H : users two_users !! 1
              = Some {| first_seen := now_iso noon; last_seen := now_iso noon;
                        total_lookups := 0; username := Some "ann";
                        first_name := None; last_name := None |})
    by reflexivity.
  split; [exact H |].
  exact (users_kept json_dumps_int session_calls two_users 1 _ H).
Defined.

(** ** Ids, daily counters and totals *)

Lemma ids_in_order_next db :
  ids_in_order db → next_lookup_id db = Z.of_nat (length (lookups db)) + 1.
Proof.
  intros [Hseq Hids]. unfold next_lookup_id. rewrite Hseq.
  assert (max_lookup_id (lookups db) ≤ Z.of_nat (length (lookups db))).
  { apply max_lookup_id_bound; [lia |]. apply Forall_lookup. intros i r Hi.
    rewrite (Hids i r Hi). apply lookup_lt_Some in Hi. lia. }
  lia.
Qed.

Lemma command_count_snoc cmd l row :
  command_count cmd (l ++ [row])
  = command_count cmd l + (if decide (command row = cmd) then 1 else 0).
Proof.
  unfold command_count. rewrite filter_app, length_app, filter_cons, filter_nil.
  destruct (decide (command row = cmd)); simpl; lia.
Qed.

Lemma daily_total_upsert (cmd date c : string) (m : gmap (string * string) Z) :
  daily_total cmd
    (<[(date, c) := match m !! (date, c) with
                    | Some n => n + 1
                    | None => 1
                    end]> m)
  = daily_total cmd m + (if decide (c = cmd) then 1 else 0).
Proof.
  unfold daily_total.
  destruct (m !! (date, c)) as [n|] eqn:Hm.
  - rewrite (sum_insert_existing _ _ n) by done. simpl.
    destruct (decide (c = cmd)); lia.
  - rewrite sum_insert_fresh by done. simpl.
    destruct (decide (c = cmd)); lia.
Qed.

Lemma daily_stats_upsert (date c : string) w :
  daily_stats (upsert_daily_stats date c w)
  = <[(date, c) := match daily_stats w !! (date, c) with
                   | Some n => n + 1
                   | None => 1
                   end]> (daily_stats w).
Proof.
  unfold upsert_daily_stats. by destruct (daily_stats w !! (date, c)).
Qed.

Section Counters.

Context {Value : Type} (json_dumps : Value → string).

Lemma lookups_seq_save_lookup t uid cmd q res db :
  int64 uid →
  lookups_seq (perform json_dumps (call_save_lookup t uid cmd q res) db)
  = next_lookup_id db.
Proof.
  intros Hint. rewrite perform_save_lookup, (bound uid) by done.
  by destruct (upsert_daily_stats_tables (today t) cmd
      (bump_total_lookups uid
         (insert_lookup (current_timestamp t) uid cmd q (json_dumps res) db)))
    as (_ & _ & ->).
Qed.


Lemma daily_stats_save_lookup t uid cmd q res db :
  int64 uid →
  daily_stats (perform json_dumps (call_save_lookup t uid cmd q res) db)
  = <[(today t, cmd) := match daily_stats db !! (today t, cmd) with
                        | Some n => n + 1
                        | None => 1
                        end]> (daily_stats db).
Proof.
  intros Hint. rewrite perform_save_lookup, (bound uid) by done.
  by rewrite daily_stats_upsert.
Qed.

Lemma perform_ids_in_order (c : call) db :
  ids_in_order db → ids_in_order (perform json_dumps c db).
Proof.
  intros Hids. destruct (logged json_dumps c) as [e|] eqn:Hc.
  - destruct (logged_save_lookup json_dumps c e Hc)
      as (t & uid & cmd & q & res & -> & Hint & _).
    pose proof (ids_in_order_next db Hids) as Hnext.
    destruct Hids as [Hseq Hids]. split.
    + rewrite lookups_save_lookup, lookups_seq_save_lookup, length_app
        by done.
      simpl. lia.
    + intros i r. rewrite lookups_save_lookup by done. intros Hi.
      apply lookup_app_Some in Hi as [Hi | [Hlen Hi]]; [by apply Hids |].
      apply list_lookup_singleton_Some in Hi as [Hi <-]. simpl. lia.
  - destruct (perform_keeps_log json_dumps c db Hc) as (Hl & Hs & _).
    unfold ids_in_order. by rewrite Hl, Hs.
Qed.

Lemma run_ids_in_order (cs : list call) db :
  ids_in_order db → ids_in_order (run json_dumps cs db).
Proof.
  revert db. induction cs as [|c cs IH]; intros db Hids; [done |].
  rewrite run_cons. by apply IH, perform_ids_in_order.
Qed.

(** From the initialised empty database on, whatever the calls, the rows of
    the log are numbered 1, 2, 3, ... in the order they were written: the
    row at position i (from 0) has id i + 1.  Ids are never reused or
    skipped. *)
Theorem lookup_ids_consecutive (cs : list call) (i : nat) r :
  lookups (run json_dumps cs (init_db None)) !! i = Some r →
  lookup_id r = Z.of_nat i + 1.
Proof.
  apply (run_ids_in_order cs (init_db None)). split; [done |].
  intros j r'. simpl. by rewrite lookup_nil.
Qed.

Lemma perform_daily_counted (c : call) db :
  daily_counted db → daily_counted (perform json_dumps c db).
Proof.
  intros Hd cmd'. destruct (logged json_dumps c) as [e|] eqn:Hc.
  - destruct (logged_save_lookup json_dumps c e Hc)
      as (t & uid & cmd & q & res & -> & Hint & _).
    rewrite lookups_save_lookup, command_count_snoc, daily_stats_save_lookup
      by done.
    rewrite daily_total_upsert. simpl. by rewrite Hd.
  - destruct (perform_keeps_log json_dumps c db Hc) as (-> & _ & ->).
    apply Hd.
Qed.

(** From the initialised empty database on, whatever the calls, the
    [daily_stats] counters of a command, added up over the dates, are the
    number of rows the log holds for that command. *)
Theorem daily_stats_count_log (cs : list call) cmd :
  daily_total cmd (daily_stats (run json_dumps cs (init_db None)))
  = command_count cmd (lookups (run json_dumps cs (init_db None))).
Proof.
  assert (Hrun : ∀ db, daily_counted db → daily_counted (run json_dumps cs db)).
  { induction cs as [|c cs IH]; intros db Hd; [done |].
    rewrite run_cons. by apply IH, perform_daily_counted. }
  apply Hrun. intros cmd'. reflexivity.
Qed.




End Counters.

Lemma lookup_ids_consecutive_witness :
  let row := {| lookup_id := 2; user_id := 7; command := "ip";
                query := "10.0.0.1"; result := "-3";
                timestamp := current_timestamp evening |} in
  lookups (run json_dumps_int session_calls (init_db None)) !! 1%nat = Some row ∧
  lookup_id row = Z.of_nat 1 + 1.
Proof.
  cbv zeta.
  assert (H : lookups (run json_dumps_int session_calls (init_db None)) !! 1%nat
              = Some {| lookup_id := 2; user_id := 7; command := "ip";
                        query := "10.0.0.1"; result := "-3";
                        timestamp := current_timestamp evening |}).
  { vm_compute. reflexivity. }
  split; [exact H |].
  exact (lookup_ids_consecutive json_dumps_int session_calls 1 _ H).
Defined.


(** ** The remaining queries *)

Lemma more_parameter_counts :
  sql_parameter_count SQL_get_all_users = 2%nat ∧
  sql_parameter_count SQL_get_recent_users = 1%nat ∧
  sql_parameter_count SQL_get_inactive_users = 1%nat ∧
  sql_parameter_count SQL_get_all_admins = 0%nat ∧
  sql_parameter_count SQL_get_user_lookups = 2%nat ∧
  sql_parameter_count SQL_get_lookup_stats = 1%nat.
Proof. repeat split; vm_compute; reflexivity. Qed.

Lemma get_all_users_eq scan limit offset db :
  get_all_users scan limit offset db
  = if bool_decide (int64 limit) && bool_decide (int64 offset)
    then (Done (select_all_users scan limit offset db), db)
    else (Raised OverflowError, db).
Proof.
  unfold get_all_users. rewrite connect_read by reflexivity.
  unfold bindable. simpl.
  by destruct (bool_decide (int64 limit)), (bool_decide (int64 offset)).
Qed.

Lemma get_recent_users_eq scan cal days db :
  get_recent_users scan cal days db
  = match days_ago_iso cal days with
    | Some cutoff => (Done (select_recent_users scan cutoff db), db)
    | None => (Raised OverflowError, db)
    end.
Proof.
  unfold get_recent_users. by destruct (days_ago_iso cal days).
Qed.

Lemma get_inactive_users_eq scan cal days db :
  get_inactive_users scan cal days db
  = match days_ago_iso cal days with
    | Some cutoff => (Done (select_inactive_users scan cutoff db), db)
    | None => (Raised OverflowError, db)
    end.
Proof.
  unfold get_inactive_users. by destruct (days_ago_iso cal days).
Qed.

Lemma get_all_admins_eq scan db :
  get_all_admins scan db = (Done (scan (admins db)).*1, db).
Proof. reflexivity. Qed.

Lemma get_user_lookups_eq scan uid limit db :
  get_user_lookups scan uid limit db
  = if bool_decide (int64 uid) && bool_decide (int64 limit)
    then (Done (select_user_lookups scan uid limit db), db)
    else (Raised OverflowError, db).
Proof.
  unfold get_user_lookups. rewrite connect_read by reflexivity.
  unfold bindable. simpl.
  by destruct (bool_decide (int64 uid)), (bool_decide (int64 limit)).
Qed.

Lemma get_lookup_stats_eq scan limit db :
  get_lookup_stats scan limit db
  = if bool_decide (int64 limit)
    then (Done (select_lookup_stats scan limit db), db)
    else (Raised OverflowError, db).
Proof.
  unfold get_lookup_stats. rewrite connect_read by reflexivity.
  unfold bindable. simpl. by destruct (bool_decide (int64 limit)).
Qed.

Global Instance text_ge_trans : Transitive text_ge.
Proof. intros a b c Hab Hbc. unfold text_ge in *. by etrans. Qed.

Lemma text_lt_not_ge a b : text_lt a b ↔ ¬ text_ge a b.
Proof.
  unfold text_lt, text_ge, String.le, String.ltb, String.leb.
  rewrite (String.compare_antisym b a).
  destruct (String.compare a b); simpl; tauto.
Qed.

Lemma ltb_text_ge a b : String.ltb b a = true → text_ge a b.
Proof.
  unfold text_ge, String.le, String.ltb, String.leb.
  by destruct (String.compare b a).
Qed.

Lemma not_ltb_text_ge a b : String.ltb a b = false → text_ge a b.
Proof.
  unfold text_ge, String.le, String.ltb, String.leb.
  rewrite (String.compare_antisym b a).
  by destruct (String.compare a b).
Qed.

Global Instance timestamp_desc_trans : Transitive timestamp_desc.
Proof. intros a b c. unfold timestamp_desc. apply text_ge_trans. Qed.

Global Instance last_seen_desc_trans : Transitive last_seen_desc.
Proof. intros a b c. unfold last_seen_desc. apply text_ge_trans. Qed.

Global Instance cnt_desc_trans : Transitive cnt_desc.
Proof. intros a b c. unfold cnt_desc. lia. Qed.

Lemma sorted_by_last_seen l :
  StronglySorted last_seen_desc (stable_sort seen_later l).
Proof.
  apply stable_sort_sorted; [apply _ | |]; intros x y Hxy.
  - by apply ltb_text_ge.
  - by apply not_ltb_text_ge.
Qed.

Lemma sorted_by_timestamp l :
  StronglySorted timestamp_desc (stable_sort stamped_later l).
Proof.
  apply stable_sort_sorted; [apply _ | |]; intros x y Hxy.
  - by apply ltb_text_ge.
  - by apply not_ltb_text_ge.
Qed.

Lemma sorted_by_cnt l : StronglySorted cnt_desc (stable_sort more_often l).
Proof.
  apply stable_sort_sorted; [apply _ | |]; intros x y Hxy;
    unfold more_often, cnt_desc in *.
  - apply bool_decide_eq_true in Hxy. lia.
  - apply bool_decide_eq_false in Hxy. lia.
Qed.

(** In a database the engine can hold, [get_all_admins] lists every admin
    exactly once: no user_id is repeated, and a user_id is listed exactly
    when [is_admin] answers true for it. *)
Theorem get_all_admins_is_admin scan db :
  valid_db db →
  (∀ m, scan m ≡ₚ map_to_list m) →
  ∃ ids,
    get_all_admins scan db = (Done ids, db) ∧
    NoDup ids ∧
    ∀ uid, uid ∈ ids ↔ is_admin uid db = (Done true, db).
Proof.
  intros Hvalid Hscan. eexists. rewrite get_all_admins_eq.
  split; [reflexivity |].
  split; [rewrite Hscan; apply NoDup_fst_map_to_list |].
  intros uid. rewrite is_admin_eq. split.
  - intros Hin. apply list_elem_of_fmap in Hin as ([k v] & -> & Hin).
    rewrite Hscan in Hin. apply elem_of_map_to_list in Hin. simpl.
    rewrite (bound k) by eauto using valid_db_admin_key.
    rewrite bool_decide_eq_true_2; [done | eauto].
  - intros Heq. destruct (bool_decide (int64 uid)); [| discriminate].
    inversion Heq as [Hb].
    apply bool_decide_eq_true in Hb as [v Hv].
    apply list_elem_of_fmap. exists (uid, v).
    split; [done |]. rewrite Hscan. by apply elem_of_map_to_list.
Qed.

(** [get_recent_users] and [get_inactive_users], asked with the same number
    of days at the same time, a number of days for which the cutoff date
    exists, split the users between them: every user row is in exactly one
    of the two answers, the recent ones having last_seen at or after the
    cutoff and the inactive ones before it. *)
Theorem recent_inactive_partition scan cal days cutoff db :
  (∀ m, scan m ≡ₚ map_to_list m) →
  days_ago_iso cal days = Some cutoff →
  ∃ recent inactive,
    get_recent_users scan cal days db = (Done recent, db) ∧
    get_inactive_users scan cal days db = (Done inactive, db) ∧
    recent ++ inactive
    ≡ₚ (λ p, (p.1, username p.2, last_seen p.2)) <$> map_to_list (users db) ∧
    (∀ row, row ∈ recent → text_ge row.2 cutoff) ∧
    (∀ row, row ∈ inactive → text_lt row.2 cutoff).
Proof.
  intros Hscan Hcut. eexists _, _.
  rewrite get_recent_users_eq, get_inactive_users_eq, Hcut.
  split; [reflexivity |]. split; [reflexivity |].
  unfold select_recent_users, select_inactive_users.
  split; [| split].
  - rewrite <- fmap_app.
    rewrite (list_filter_iff (λ p, text_lt (last_seen p.2) _)
               (λ p, ¬ text_ge (last_seen p.2) cutoff))
      by (intros; apply text_lt_not_ge).
    by rewrite filter_app_complement, Hscan.
  - intros row Hin. apply list_elem_of_fmap in Hin as (p & -> & Hin).
    by apply list_elem_of_filter in Hin as [Hp _].
  - intros row Hin. apply list_elem_of_fmap in Hin as (p & -> & Hin).
    by apply list_elem_of_filter in Hin as [Hp _].
Qed.

(** Where the cutoff date does not exist, both functions raise
    OverflowError before any statement runs. *)
Lemma recent_inactive_overflow scan cal days db :
  days_ago_iso cal days = None →
  get_recent_users scan cal days db = (Raised OverflowError, db) ∧
  get_inactive_users scan cal days db = (Raised OverflowError, db).
Proof.
  intros Hnone. by rewrite get_recent_users_eq, get_inactive_users_eq, Hnone.
Qed.

(** [get_all_users] pages: for limits and an offset that are not negative
    (and, with their sums, 64-bit integers), the page of [a] rows at
    [offset] followed by the page of [b] rows at [offset + a] is the page
    of [a + b] rows at [offset]. *)
Theorem get_all_users_pages scan a b offset db :
  0 ≤ a → 0 ≤ b → 0 ≤ offset →
  int64 (a + b) → int64 (offset + a) →
  ∃ first second both,
    get_all_users scan a offset db = (Done first, db) ∧
    get_all_users scan b (offset + a) db = (Done second, db) ∧
    get_all_users scan (a + b) offset db = (Done both, db) ∧
    first ++ second = both.
Proof.
  intros Ha Hb Ho Hab Hoa.
  assert (int64 a ∧ int64 b ∧ int64 offset) as (Hia & Hib & Hio).
  { unfold int64, int64_min, int64_max in *. lia. }
  eexists _, _, _. rewrite !get_all_users_eq.
  rewrite (bound a), (bound b), (bound offset), (bound (a + b)),
    (bound (offset + a)) by done.
  repeat (split; [reflexivity |]).
  unfold select_all_users, sql_limit, sql_offset.
  rewrite !decide_False by lia. rewrite <- fmap_app. f_equal.
  rewrite !Z2Nat.inj_add by lia.
  rewrite <- drop_drop. apply take_take_drop.
Qed.

(** [get_all_users] returns user rows, most recently seen first: for a
    limit and an offset that are not negative (and 64-bit integers),
    min(limit, users - offset) rows, in an order descending in last_seen,
    each the (user_id, username, first_name, total_lookups, last_seen) of a
    user row. *)
Theorem get_all_users_ordered scan limit offset db :
  (∀ m, scan m ≡ₚ map_to_list m) →
  0 ≤ limit → 0 ≤ offset → int64 limit → int64 offset →
  ∃ rows,
    get_all_users scan limit offset db = (Done rows, db) ∧
    length rows
    = Nat.min (Z.to_nat limit)
        (length (map_to_list (users db)) - Z.to_nat offset) ∧
    StronglySorted (λ x y, text_ge x.2 y.2) rows ∧
    ∀ row, row ∈ rows →
      ∃ r, users db !! row.1.1.1.1 = Some r ∧
           row = (row.1.1.1.1, username r, first_name r, total_lookups r,
                  last_seen r).
Proof.
  intros Hscan Hl Ho Hil Hio. eexists.
  rewrite get_all_users_eq, (bound limit), (bound offset) by done.
  split; [reflexivity |]. unfold select_all_users.
  set (sorted := stable_sort seen_later (scan (users db))).
  assert (Hperm : sorted ≡ₚ map_to_list (users db)).
  { unfold sorted. by rewrite stable_sort_perm. }
  assert (Hsorted : StronglySorted last_seen_desc sorted).
  { apply sorted_by_last_seen. }
  split; [| split].
  - rewrite length_fmap, sql_limit_length by done.
    unfold sql_offset. by rewrite length_drop, Hperm.
  - apply (StronglySorted_fmap _ last_seen_desc); [by intros x y |].
    apply sql_limit_sorted. unfold sql_offset.
    rewrite <- (take_drop (Z.to_nat offset) sorted) in Hsorted.
    by apply StronglySorted_app_1_r in Hsorted.
  - intros row Hin. apply list_elem_of_fmap in Hin as ([k r] & -> & Hin).
    apply sql_limit_elem_of in Hin. unfold sql_offset in Hin.
    apply (elem_of_sublist _ sorted) in Hin; [| apply sublist_drop].
    rewrite Hperm in Hin. apply elem_of_map_to_list in Hin. simpl. eauto.
Qed.

(** [get_user_lookups] returns lookups of the asked user only: for a
    user_id that is a 64-bit integer and a limit that is one and not
    negative, min(limit, number of the user's logged lookups) rows, newest
    timestamp first, each the (command, query, timestamp) of a logged row
    with that user_id. *)
Theorem get_user_lookups_rows scan uid limit db :
  (∀ l, scan l ≡ₚ l) → int64 uid → 0 ≤ limit → int64 limit →
  ∃ rows,
    get_user_lookups scan uid limit db = (Done rows, db) ∧
    length rows = Nat.min (Z.to_nat limit) (lookups_of uid (lookups db)) ∧
    StronglySorted (λ x y, text_ge x.2 y.2) rows ∧
    ∀ row, row ∈ rows →
      ∃ r, r ∈ lookups db ∧ user_id r = uid ∧
           row = (command r, query r, timestamp r).
Proof.
  intros Hscan Hu Hl Hil. eexists.
  rewrite get_user_lookups_eq, (bound uid), (bound limit) by done.
  split; [reflexivity |]. unfold select_user_lookups.
  set (mine := filter (λ r, user_id r = uid) (scan (lookups db))).
  assert (Hperm : stable_sort stamped_later mine
                  ≡ₚ filter (λ r, user_id r = uid) (lookups db)).
  { rewrite stable_sort_perm. unfold mine. by rewrite Hscan. }
  split; [| split].
  - rewrite length_fmap, sql_limit_length by done. by rewrite Hperm.
  - apply (StronglySorted_fmap _ timestamp_desc); [by intros x y |].
    apply sql_limit_sorted, sorted_by_timestamp.
  - intros row Hin. apply list_elem_of_fmap in Hin as (r & -> & Hin).
    apply sql_limit_elem_of in Hin. rewrite Hperm in Hin.
    apply list_elem_of_filter in Hin as [Hu' Hin]. eauto.
Qed.

Lemma sumZ_fmap_add {A} (f g : A → Z) (l : list A) :
  sumZ ((λ x, f x + g x) <$> l) = sumZ (f <$> l) + sumZ (g <$> l).
Proof.
  induction l as [|x l IH]; [done |].
  rewrite !fmap_cons. unfold sumZ in *. simpl. lia.
Qed.

Lemma sumZ_indicator_notin (x : string) (cs : list string) :
  x ∉ cs → sumZ ((λ c, if decide (x = c) then 1 else 0) <$> cs) = 0.
Proof.
  induction cs as [|c cs IH]; intros Hx; [done |].
  apply not_elem_of_cons in Hx as [Hne Hx]. rewrite fmap_cons.
  unfold sumZ in *. simpl. rewrite decide_False by done. by rewrite IH.
Qed.

Lemma sumZ_indicator_in (x : string) (cs : list string) :
  NoDup cs → x ∈ cs →
  sumZ ((λ c, if decide (x = c) then 1 else 0) <$> cs) = 1.
Proof.
  induction cs as [|c cs IH]; intros Hnd Hx; [by apply elem_of_nil in Hx |].
  apply NoDup_cons in Hnd as [Hc Hnd]. rewrite fmap_cons.
  change (sumZ (?a :: ?l)) with (a + sumZ l).
  apply elem_of_cons in Hx as [-> | Hx].
  - rewrite decide_True by done. rewrite sumZ_indicator_notin by done. lia.
  - rewrite decide_False by (intros ->; done). rewrite IH by done. lia.
Qed.

Lemma command_counts_sum (cs : list string) (l : list lookup_row) :
  NoDup cs → (∀ r, r ∈ l → command r ∈ cs) →
  sumZ ((λ c, command_count c l) <$> cs) = Z.of_nat (length l).
Proof.
  intros Hnd. induction l as [|r l IH]; intros Hin.
  - clear Hnd Hin. induction cs as [|c cs IHcs]; [done |].
    rewrite fmap_cons. change (sumZ (?a :: ?x)) with (a + sumZ x).
    by rewrite IHcs.
  - assert (Hstep : ∀ cs' : list string,
      (λ c, command_count c (r :: l)) <$> cs'
      = (λ c, (if decide (command r = c) then 1 else 0)
              + command_count c l) <$> cs').
    { intros cs'. induction cs' as [|c cs' IHcs]; [done |].
      rewrite !fmap_cons, IHcs. f_equal.
      unfold command_count. rewrite filter_cons.
      destruct (decide (command r = c)); simpl; lia. }
    rewrite Hstep, sumZ_fmap_add, IH, sumZ_indicator_in; simpl.
    + lia.
    + done.
    + apply Hin. by left.
    + intros r' Hr'. apply Hin. by right.
Qed.

Lemma command_count_perm cmd l1 l2 :
  l1 ≡ₚ l2 → command_count cmd l1 = command_count cmd l2.
Proof. intros Hp. unfold command_count. by rewrite Hp. Qed.

Lemma group_by_command_fst l :
  (group_by_command l).*1 = remove_dups (command <$> l).
Proof.
  unfold group_by_command.
  induction (remove_dups (command <$> l)) as [|c cs IH]; [done |].
  rewrite !fmap_cons. simpl. by rewrite IH.
Qed.

Lemma group_by_command_snd l :
  (group_by_command l).*2
  = (λ c, command_count c l) <$> remove_dups (command <$> l).
Proof.
  unfold group_by_command.
  induction (remove_dups (command <$> l)) as [|c cs IH]; [done |].
  rewrite !fmap_cons. simpl. by rewrite IH.
Qed.

Lemma group_by_command_elem_of cmd n l :
  (cmd, n) ∈ group_by_command l →
  n = command_count cmd l ∧ 1 ≤ n.
Proof.
  unfold group_by_command. intros Hin.
  apply list_elem_of_fmap in Hin as (c & Heq & Hc). inversion Heq; subst.
  split; [done |]. rewrite elem_of_remove_dups in Hc.
  apply list_elem_of_fmap in Hc as (r & -> & Hr).
  unfold command_count.
  assert (r ∈ filter (λ r', command r' = command r) l) as Hf
    by (by apply list_elem_of_filter).
  destruct (filter (λ r', command r' = command r) l);
    [by apply elem_of_nil in Hf | simpl; lia].
Qed.

(** For a limit that is a 64-bit integer, [get_lookup_stats] returns one
    row per command, each with the number of logged lookups of that command
    (at least 1), no command twice, the largest count first. *)
Theorem get_lookup_stats_counts scan limit db :
  (∀ l, scan l ≡ₚ l) → int64 limit →
  ∃ rows,
    get_lookup_stats scan limit db = (Done rows, db) ∧
    NoDup rows.*1 ∧
    StronglySorted cnt_desc rows ∧
    ∀ cmd n, (cmd, n) ∈ rows →
      n = command_count cmd (lookups db) ∧ 1 ≤ n.
Proof.
  intros Hscan Hint. eexists.
  rewrite get_lookup_stats_eq, (bound limit) by done.
  split; [reflexivity |]. unfold select_lookup_stats.
  set (groups := group_by_command (scan (lookups db))).
  split; [| split].
  - apply (sublist_NoDup _ (stable_sort more_often groups).*1).
    + rewrite stable_sort_perm. unfold groups.
      rewrite group_by_command_fst. apply NoDup_remove_dups.
    + apply fmap_sublist, sql_limit_sublist.
  - apply sql_limit_sorted, sorted_by_cnt.
  - intros cmd n Hin. apply sql_limit_elem_of in Hin.
    rewrite stable_sort_perm in Hin.
    apply group_by_command_elem_of in Hin.
    by rewrite (command_count_perm cmd _ _ (Hscan (lookups db))) in Hin.
Qed.

(** Asked without a limit (a negative one, a 64-bit integer),
    [get_lookup_stats] accounts for the whole log: every command that was
    looked up has a row, and the counts add up to the number of logged
    lookups. *)
Theorem get_lookup_stats_total scan limit db :
  (∀ l, scan l ≡ₚ l) → limit < 0 → int64 limit →
  ∃ rows,
    get_lookup_stats scan limit db = (Done rows, db) ∧
    (∀ r, r ∈ lookups db → command r ∈ rows.*1) ∧
    sumZ rows.*2 = Z.of_nat (length (lookups db)).
Proof.
  intros Hscan Hneg Hint. eexists.
  rewrite get_lookup_stats_eq, (bound limit) by done.
  split; [reflexivity |]. unfold select_lookup_stats.
  rewrite sql_limit_negative by done.
  set (l' := scan (lookups db)).
  split.
  - intros r Hr. rewrite stable_sort_perm, group_by_command_fst.
    apply elem_of_remove_dups, list_elem_of_fmap. exists r.
    split; [done |]. unfold l'. by rewrite Hscan.
  - rewrite (sumZ_perm _ (group_by_command l').*2)
      by (by rewrite stable_sort_perm).
    rewrite group_by_command_snd, command_counts_sum.
    + unfold l'. by rewrite Hscan.
    + apply NoDup_remove_dups.
    + intros r Hr. apply elem_of_remove_dups, list_elem_of_fmap. by exists r.
Qed.

(** ** Worked instances *)

Lemma scan_log_perm l : scan_log l ≡ₚ l.
Proof. reflexivity. Qed.

Lemma scan_admins_stored_perm m : scan_admins_stored m ≡ₚ map_to_list m.
Proof. reflexivity. Qed.

Lemma get_all_admins_is_admin_witness :
  valid_db one_admin ∧
  (∀ m, scan_admins_stored m ≡ₚ map_to_list m) ∧
  ∃ ids,
    get_all_admins scan_admins_stored one_admin = (Done ids, one_admin) ∧
    NoDup ids ∧
    ∀ uid, uid ∈ ids ↔ is_admin uid one_admin = (Done true, one_admin).
Proof.
  assert (Hv : valid_db one_admin) by by_evaluation.
  split; [exact Hv |]. split; [exact scan_admins_stored_perm |].
  exact (get_all_admins_is_admin scan_admins_stored one_admin Hv
           scan_admins_stored_perm).
Defined.

Lemma recent_inactive_partition_witness :
  (∀ m, scan_ascending m ≡ₚ map_to_list m) ∧
  days_ago_iso afternoon 7 = Some "2024-05-01T15:00:00" ∧
  ∃ recent inactive,
    get_recent_users scan_ascending afternoon 7 noon_and_evening
    = (Done recent, noon_and_evening) ∧
    get_inactive_users scan_ascending afternoon 7 noon_and_evening
    = (Done inactive, noon_and_evening) ∧
    recent ++ inactive
    ≡ₚ (λ p, (p.1, username p.2, last_seen p.2))
       <$> map_to_list (users noon_and_evening) ∧
    (∀ row, row ∈ recent → text_ge row.2 "2024-05-01T15:00:00") ∧
    (∀ row, row ∈ inactive → text_lt row.2 "2024-05-01T15:00:00").
Proof.
  assert (H : days_ago_iso afternoon 7 = Some "2024-05-01T15:00:00").
  { vm_compute. reflexivity. }
  split; [exact scan_ascending_perm |]. split; [exact H |].
  exact (recent_inactive_partition scan_ascending afternoon 7 _
           noon_and_evening scan_ascending_perm H).
Defined.

(** The user last seen in the evening is recent, the one last seen at noon
    inactive, for a cutoff in the afternoon; a million days back there is
    no date, and the call raises. *)
Example recent_inactive_afternoon :
  get_recent_users scan_ascending afternoon 7 noon_and_evening
  = (Done [(2, Some "bob", now_iso evening)], noon_and_evening) ∧
  get_inactive_users scan_ascending afternoon 7 noon_and_evening
  = (Done [(1, Some "ann", now_iso noon)], noon_and_evening) ∧
  get_recent_users scan_ascending afternoon 1000000 noon_and_evening
  = (Raised OverflowError, noon_and_evening).
Proof. repeat split; vm_compute; reflexivity. Qed.

(** The calendar counts days as the Gregorian calendar does. *)
Example calendar_days :
  days_ago_iso afternoon 38 = Some "2024-03-31T15:00:00" ∧
  days_ago_iso (calendar_at 2024 3 1 "00:00:00") 1
  = Some "2024-02-29T00:00:00" ∧
  days_ago_iso (calendar_at 2023 3 1 "00:00:00") 1
  = Some "2023-02-28T00:00:00" ∧
  days_ago_iso afternoon (-366) = Some "2025-05-09T15:00:00" ∧
  days_ago_iso afternoon 1000000000 = None.
Proof. repeat split; vm_compute; reflexivity. Qed.

Lemma get_all_users_pages_witness :
  0 ≤ 1 ∧ 0 ≤ 1 ∧ 0 ≤ 0 ∧ int64 (1 + 1) ∧ int64 (0 + 1) ∧
  ∃ first second both,
    get_all_users scan_ascending 1 0 noon_and_evening
    = (Done first, noon_and_evening) ∧
    get_all_users scan_ascending 1 (0 + 1) noon_and_evening
    = (Done second, noon_and_evening) ∧
    get_all_users scan_ascending (1 + 1) 0 noon_and_evening
    = (Done both, noon_and_evening) ∧
    first ++ second = both.
Proof.
  assert (H1 : 0 ≤ 1) by lia. assert (H0 : 0 ≤ 0) by lia.
  assert (Hab : int64 (1 + 1)) by by_evaluation.
  assert (Hoa : int64 (0 + 1)) by by_evaluation.
  split; [exact H1 |]. split; [exact H1 |]. split; [exact H0 |].
  split; [exact Hab |]. split; [exact Hoa |].
  exact (get_all_users_pages scan_ascending 1 1 0 noon_and_evening
           H1 H1 H0 Hab Hoa).
Defined.

Lemma get_all_users_ordered_witness :
  (∀ m, scan_ascending m ≡ₚ map_to_list m) ∧
  0 ≤ 5 ∧ 0 ≤ 1 ∧ int64 5 ∧ int64 1 ∧
  ∃ rows,
    get_all_users scan_ascending 5 1 noon_and_evening
    = (Done rows, noon_and_evening) ∧
    length rows
    = Nat.min (Z.to_nat 5)
        (length (map_to_list (users noon_and_evening)) - Z.to_nat 1) ∧
    StronglySorted (λ x y, text_ge x.2 y.2) rows ∧
    ∀ row, row ∈ rows →
      ∃ r, users noon_and_evening !! row.1.1.1.1 = Some r ∧
           row = (row.1.1.1.1, username r, first_name r, total_lookups r,
                  last_seen r).
Proof.
  assert (H5 : 0 ≤ 5) by lia. assert (H1 : 0 ≤ 1) by lia.
  assert (Hi5 : int64 5) by by_evaluation.
  assert (Hi1 : int64 1) by by_evaluation.
  split; [exact scan_ascending_perm |]. split; [exact H5 |].
  split; [exact H1 |]. split; [exact Hi5 |]. split; [exact Hi1 |].
  exact (get_all_users_ordered scan_ascending 5 1 noon_and_evening
           scan_ascending_perm H5 H1 Hi5 Hi1).
Defined.

(** Most recently seen first: the evening's user, then noon's. *)
Example get_all_users_newest_first :
  get_all_users scan_ascending 10 0 noon_and_evening
  = (Done [(2, Some "bob", None, 0, now_iso evening);
           (1, Some "ann", None, 0, now_iso noon)], noon_and_evening).
Proof. vm_compute. reflexivity. Qed.

Lemma get_user_lookups_rows_witness :
  let db := run json_dumps_int lookup_calls (init_db None) in
  (∀ l, scan_log l ≡ₚ l) ∧ int64 7 ∧ 0 ≤ 2 ∧ int64 2 ∧
  ∃ rows,
    get_user_lookups scan_log 7 2 db = (Done rows, db) ∧
    length rows = Nat.min (Z.to_nat 2) (lookups_of 7 (lookups db)) ∧
    StronglySorted (λ x y, text_ge x.2 y.2) rows ∧
    ∀ row, row ∈ rows →
      ∃ r, r ∈ lookups db ∧ user_id r = 7 ∧
           row = (command r, query r, timestamp r).
Proof.
  cbv zeta.
  assert (H7 : int64 7) by by_evaluation.
  assert (H2 : 0 ≤ 2) by lia.
  assert (Hi2 : int64 2) by by_evaluation.
  split; [exact scan_log_perm |]. split; [exact H7 |].
  split; [exact H2 |]. split; [exact Hi2 |].
  exact (get_user_lookups_rows scan_log 7 2 _ scan_log_perm H7 H2 Hi2).
Defined.

Lemma get_lookup_stats_counts_witness :
  let db := run json_dumps_int lookup_calls (init_db None) in
  (∀ l, scan_log l ≡ₚ l) ∧ int64 1 ∧
  ∃ rows,
    get_lookup_stats scan_log 1 db = (Done rows, db) ∧
    NoDup rows.*1 ∧
    StronglySorted cnt_desc rows ∧
    ∀ cmd n, (cmd, n) ∈ rows →
      n = command_count cmd (lookups db) ∧ 1 ≤ n.
Proof.
  cbv zeta. assert (H1 : int64 1) by by_evaluation.
  split; [exact scan_log_perm |]. split; [exact H1 |].
  exact (get_lookup_stats_counts scan_log 1 _ scan_log_perm H1).
Defined.

Lemma get_lookup_stats_total_witness :
  let db := run json_dumps_int lookup_calls (init_db None) in
  (∀ l, scan_log l ≡ₚ l) ∧ -1 < 0 ∧ int64 (-1) ∧
  ∃ rows,
    get_lookup_stats scan_log (-1) db = (Done rows, db) ∧
    (∀ r, r ∈ lookups db → command r ∈ rows.*1) ∧
    sumZ rows.*2 = Z.of_nat (length (lookups db)).
Proof.
  cbv zeta. assert (H : -1 < 0) by lia.
  assert (Hi : int64 (-1)) by by_evaluation.
  split; [exact scan_log_perm |]. split; [exact H |]. split; [exact Hi |].
  exact (get_lookup_stats_total scan_log (-1) _ scan_log_perm H Hi).
Defined.

(** Three lookups of one command and one of another. *)
Example get_lookup_stats_three_one :
  (get_lookup_stats scan_log 5 (run json_dumps_int lookup_calls (init_db None))).1
  = Done [("phone", 3); ("ip", 1)] ∧
  (get_user_lookups scan_log 7 10
     (run json_dumps_int lookup_calls (init_db None))).1
  = Done [("phone", "5559876", current_timestamp evening);
          ("phone", "5551234", current_timestamp noon);
          ("ip", "10.0.0.1", current_timestamp noon)] ∧
  (get_lookup_stats scan_log too_big
     (run json_dumps_int lookup_calls (init_db None))).1
  = Raised OverflowError.
Proof. repeat split; vm_compute; reflexivity. Qed.
